(** * PyBox: the batched ODE driver of [f2py/ODE_solver.py]

    A shallow embedding of [run_simulation] and of the two closures it
    defines, [dydt_func] and [jacobian], together with the properties of
    the batch integration controller, the RHS evaluator and the Jacobian
    evaluator.

    Conventions of the embedding.
    - Python exceptions are values of [exn]; a computation that may raise
      returns a [res].
    - The local variables of [run_simulation] live in a [Store]; statements
      are actions of the state-and-exception monad [M].
    - Python floats are accessed through the interface [PyFloat], with two
      implementations: exact rationals ([Q]) and IEEE-754 binary64
      ([spec_float] with precision 53).
    - The external Fortran kernels and the Assimulo solver are parameters.
      The solver is a black box that calls back into [dydt_func] and
      [jacobian]: it is modelled by the finite tree of calls it makes. *)

From Stdlib Require Import ZArith QArith Lia List.
From Stdlib Require Import Floats.SpecFloat.
From stdpp Require Import base option list gmap strings.

(** ** Exceptions and results *)

Inductive exn : Type :=
| IndexError
| KeyError
| ValueError
| ZeroDivisionError
| OverflowError
| UnboundLocalError
| SolverError (msg : string).

Inductive res (A : Type) : Type :=
| Ok (a : A)
| Raise (e : exn).
Arguments Ok {A} a.
Arguments Raise {A} e.

Definition res_bind {A B} (r : res A) (f : A -> res B) : res B :=
  match r with
  | Ok a => f a
  | Raise e => Raise e
  end.

Definition is_Ok {A} (r : res A) : bool :=
  match r with Ok _ => true | Raise _ => false end.

(** ** Python floats *)

(** The operations the driver performs on floats.  [float_lit m e] is the
    value of the decimal literal [m]e[e]; [fdiv] is true division, raising
    [ZeroDivisionError]; [fint] is [int()], truncation toward zero. *)
Class PyFloat (F : Type) : Type := {
  float_lit : Z -> Z -> F;
  fadd : F -> F -> F;
  fmul : F -> F -> F;
  fdiv : F -> F -> res F;
  fltb : F -> F -> bool;
  feqb : F -> F -> bool;
  fint : F -> res Z
}.

(** *** Exact rationals *)

Definition Q_lit (m e : Z) : Q :=
  match e with
  | Zneg p => Qmake m (10 ^ p)
  | _ => inject_Z (m * 10 ^ e)
  end.

Definition Q_div (a b : Q) : res Q :=
  if Qeq_bool b 0 then Raise ZeroDivisionError else Ok (Qdiv a b).

Definition Q_ltb (a b : Q) : bool := negb (Qle_bool b a).

Definition Q_int (a : Q) : Z := Z.quot (Qnum a) (Zpos (Qden a)).

#[export] Instance Q_float : PyFloat Q := {|
  float_lit := Q_lit;
  fadd := Qplus;
  fmul := Qmult;
  fdiv := Q_div;
  fltb := Q_ltb;
  feqb := Qeq_bool;
  fint := fun a => Ok (Q_int a)
|}.

(** *** IEEE-754 binary64 *)

Definition prec64 : Z := 53.
Definition emax64 : Z := 1024.

Definition b64_of_Z (z : Z) : spec_float := binary_normalize prec64 emax64 z 0 false.

Definition b64_lit (m e : Z) : spec_float :=
  match e with
  | Zneg p => SFdiv prec64 emax64 (b64_of_Z m) (b64_of_Z (Zpos (10 ^ p)))
  | _ => b64_of_Z (m * 10 ^ e)
  end.

Definition b64_is_zero (x : spec_float) : bool :=
  match x with S754_zero _ => true | _ => false end.

Definition b64_div (a b : spec_float) : res spec_float :=
  if b64_is_zero b then Raise ZeroDivisionError else Ok (SFdiv prec64 emax64 a b).

Definition b64_int (x : spec_float) : res Z :=
  match x with
  | S754_zero _ => Ok 0%Z
  | S754_infinity _ => Raise OverflowError
  | S754_nan => Raise ValueError
  | S754_finite s m e =>
      let a := match e with
               | Zneg p => Z.shiftr (Zpos m) (Zpos p)
               | _ => Z.shiftl (Zpos m) e
               end in
      Ok (if s then Z.opp a else a)
  end.

#[export] Instance b64_float : PyFloat spec_float := {|
  float_lit := b64_lit;
  fadd := SFadd prec64 emax64;
  fmul := SFmul prec64 emax64;
  fdiv := b64_div;
  fltb := SFltb;
  feqb := SFeqb;
  fint := b64_int
|}.

(** ** Python and numpy indexing *)

(** The position denoted by index [i] in a sequence of length [n]: negative
    indices count from the end, anything else out of range raises. *)
Definition py_index (n : nat) (i : Z) : res nat :=
  if ((0 <=? i) && (i <? Z.of_nat n))%Z then Ok (Z.to_nat i)
  else if ((- Z.of_nat n <=? i) && (i <? 0))%Z then Ok (Z.to_nat (i + Z.of_nat n))
  else Raise IndexError.

(** [l[i]] *)
Definition py_getitem {A} (l : list A) (i : Z) : res A :=
  res_bind (py_index (length l) i) (fun k =>
  match l !! k with
  | Some x => Ok x
  | None => Raise IndexError
  end).

(** [l[i] = v] *)
Definition py_setitem {A} (l : list A) (i : Z) (v : A) : res (list A) :=
  res_bind (py_index (length l) i) (fun k => Ok (<[k := v]> l)).

(** [y[idxs]] for a list of integer indices. *)
Fixpoint numpy_take {A} (y : list A) (idxs : list Z) : res (list A) :=
  match idxs with
  | [] => Ok []
  | i :: rest =>
      res_bind (py_getitem y i) (fun x =>
      res_bind (numpy_take y rest) (fun xs => Ok (x :: xs)))
  end.

(** Insertion-ordered dictionaries with string keys. *)
Definition dict_keys {A} (d : list (string * A)) : list string := map fst d.

Fixpoint dict_get {A} (d : list (string * A)) (k : string) : res A :=
  match d with
  | [] => Raise KeyError
  | (k', v) :: rest => if String.eqb k' k then Ok v else dict_get rest k
  end.

Definition gmap_get {K} `{Countable K} {A} (d : gmap K A) (k : K) : res A :=
  match d !! k with
  | Some v => Ok v
  | None => Raise KeyError
  end.

Section Numpy.
Context {F : Type} `{PyFloat F}.

(** [numpy.sum] of a one-dimensional array, in index order. *)
Definition numpy_sum (a : list F) : F := fold_left fadd a (float_lit 0 0).

Fixpoint zip_mul (a b : list F) : list F :=
  match a, b with
  | x :: a', y :: b' => fmul x y :: zip_mul a' b'
  | _, _ => []
  end.

(** [numpy.multiply] on one-dimensional arrays: element-wise on equal
    shapes, a one-element operand is broadcast, other shapes raise. *)
Definition numpy_multiply (a b : list F) : res (list F) :=
  if Nat.eqb (length a) (length b) then Ok (zip_mul a b)
  else match a, b with
       | [x], _ => Ok (map (fmul x) b)
       | _, [y] => Ok (map (fun x => fmul x y) a)
       | _, _ => Raise ValueError
       end.

(** [numpy.zeros((rows, cols))] *)
Definition numpy_zeros (rows : Z) (cols : nat) : res (list (list F)) :=
  if (rows <? 0)%Z then Raise ValueError
  else Ok (repeat (repeat (float_lit 0 0) cols) (Z.to_nat rows)).

(** [m[-1,:]] *)
Definition last_row (m : list (list F)) : res (list F) := py_getitem m (-1).

(** [m[i,:] = row]: the row is copied into the matrix; a one-element row
    is broadcast along the columns. *)
Definition set_row (m : list (list F)) (i : Z) (row : list F) : res (list (list F)) :=
  res_bind (py_index (length m) i) (fun k =>
  match m !! k with
  | None => Raise IndexError
  | Some old =>
      if Nat.eqb (length row) (length old) then Ok (<[k := row]> m)
      else match row with
           | [x] => Ok (<[k := repeat x (length old)]> m)
           | _ => Raise ValueError
           end
  end).
End Numpy.

(** ** Data model *)

(** [input_dict]: the reaction network context. [species_dict] maps
    positions to names, [species_dict2array] names to positions,
    [species_initial_conc] names to concentrations in ppb. *)
Record InputDict (F : Type) : Type := {
  species_dict : gmap Z string;
  species_dict2array : gmap string Z;
  species_initial_conc : list (string * F);
  equations : Z
}.
Arguments species_dict {F}.
Arguments species_dict2array {F}.
Arguments species_initial_conc {F}.
Arguments equations {F}.

(** The arguments of [run_simulation]. *)
Record Args (F : Type) : Type := {
  filename : string;
  start_time : F;
  save_output : bool;
  temp : F;
  RH : F;
  RO2_indices : list Z;
  H2O : F;
  input_dict : InputDict F;
  simulation_time : F;
  batch_step : F
}.
Arguments filename {F}.
Arguments start_time {F}.
Arguments save_output {F}.
Arguments temp {F}.
Arguments RH {F}.
Arguments RO2_indices {F}.
Arguments H2O {F}.
Arguments input_dict {F}.
Arguments simulation_time {F}.
Arguments batch_step {F}.

(** [Explicit_Problem(dydt_func, y0, t0, name = filename)] with its [jac]
    attribute; the two callables are fixed, only their presence is kept. *)
Record ExplicitProblem (F : Type) : Type := {
  prob_y0 : list F;
  prob_t0 : F;
  prob_name : string;
  prob_jac : bool
}.
Arguments prob_y0 {F}.
Arguments prob_t0 {F}.
Arguments prob_name {F}.
Arguments prob_jac {F}.

(** [CVode(exp_mod)] and the attributes the driver sets on it. *)
Record CVodeSim (F : Type) : Type := {
  problem : ExplicitProblem F;
  atol : list F;
  rtol : F;
  inith : F;
  maxh : F;
  usejac : bool;
  report_continuously : bool;
  maxncf : Z
}.
Arguments problem {F}.
Arguments atol {F}.
Arguments rtol {F}.
Arguments inith {F}.
Arguments maxh {F}.
Arguments usejac {F}.
Arguments report_continuously {F}.
Arguments maxncf {F}.

(** What [simulate] returns: [(t_output, y_output)]. *)
Definition trajectory (F : Type) : Type := (list F * list (list F))%type.

(** One invocation of the solver, seen from the driver: a finite tree of
    calls to the RHS and Jacobian closures, each continued on the value or
    the exception the closure produced, ending in the trajectory or in an
    exception of the solver. *)
Inductive solver_run (F : Type) : Type :=
| Finish (r : res (trajectory F))
| AskRhs (t : F) (y : list F) (k : res (list F) -> solver_run F)
| AskJac (t : F) (y : list F) (k : res (list (list F)) -> solver_run F).
Arguments Finish {F} r.
Arguments AskRhs {F} t y k.
Arguments AskJac {F} t y k.

(** The imported callables: the four Fortran kernels and the solver. *)
Record Externals (F : Type) : Type := {
  evaluate_rates_fortran : F -> F -> F -> F -> list F;
  reactants_fortran : list F -> list F;
  loss_gain_fortran : list F -> list F;
  jacobian_fortran : list F -> list F -> list (list F);
  simulate : CVodeSim F -> F -> solver_run F
}.
Arguments evaluate_rates_fortran {F}.
Arguments reactants_fortran {F}.
Arguments loss_gain_fortran {F}.
Arguments jacobian_fortran {F}.
Arguments simulate {F}.

(** A call of one of the closures, as recorded in the log. *)
Inductive call (F : Type) : Type :=
| CallRhs (t : F) (y : list F)
| CallJac (t : F) (y : list F).
Arguments CallRhs {F} t y.
Arguments CallJac {F} t y.

Definition call_time {F} (c : call F) : F :=
  match c with CallRhs t _ => t | CallJac t _ => t end.

(** The record of one solver invocation: the simulator it ran, the final
    time asked for, the closure calls made and what came back. *)
Record BatchLog (F : Type) : Type := {
  log_sim : CVodeSim F;
  log_tfinal : F;
  log_calls : list (call F);
  log_result : res (trajectory F)
}.
Arguments log_sim {F}.
Arguments log_tfinal {F}.
Arguments log_calls {F}.
Arguments log_result {F}.

(** The local variables of [run_simulation] once setup is done.  [args]
    holds the function's arguments; [trace] is a ghost log of the solver
    invocations, oldest first. *)
Record Store (F : Type) : Type := {
  args : Args F;
  Cfactor : F;
  num_species : nat;
  y0 : list F;
  t0 : F;
  total_time : F;
  t_array : list F;
  time_step : Z;
  number_steps : Z;
  y_matrix : list (list F);
  y_output : option (list (list F));
  trace : list (BatchLog F)
}.
Arguments args {F}.
Arguments Cfactor {F}.
Arguments num_species {F}.
Arguments y0 {F}.
Arguments t0 {F}.
Arguments total_time {F}.
Arguments t_array {F}.
Arguments time_step {F}.
Arguments number_steps {F}.
Arguments y_matrix {F}.
Arguments y_output {F}.
Arguments trace {F}.

(** ** The state-and-exception monad of the driver *)

Section Monad.
Context {F : Type}.

(** A statement maps the store to a result and the store it leaves; on
    an exception the store is the one at the point of the raise. *)
Definition M (A : Type) : Type := Store F -> res A * Store F.

Definition ret {A} (a : A) : M A := fun st => (Ok a, st).

Definition bind {A B} (m : M A) (f : A -> M B) : M B :=
  fun st =>
    match m st with
    | (Ok a, st') => f a st'
    | (Raise e, st') => (Raise e, st')
    end.

Definition lift {A} (r : res A) : M A := fun st => (r, st).

Definition read {A} (proj : Store F -> A) : M A := fun st => (Ok (proj st), st).

Definition modify (f : Store F -> Store F) : M unit := fun st => (Ok tt, f st).

Definition set_y0 (v : list F) (st : Store F) : Store F :=
  {| args := args st; Cfactor := Cfactor st; num_species := num_species st;
     y0 := v; t0 := t0 st; total_time := total_time st;
     t_array := t_array st; time_step := time_step st;
     number_steps := number_steps st; y_matrix := y_matrix st;
     y_output := y_output st; trace := trace st |}.

Definition set_total_time (v : F) (st : Store F) : Store F :=
  {| args := args st; Cfactor := Cfactor st; num_species := num_species st;
     y0 := y0 st; t0 := t0 st; total_time := v;
     t_array := t_array st; time_step := time_step st;
     number_steps := number_steps st; y_matrix := y_matrix st;
     y_output := y_output st; trace := trace st |}.

Definition set_t_array (v : list F) (st : Store F) : Store F :=
  {| args := args st; Cfactor := Cfactor st; num_species := num_species st;
     y0 := y0 st; t0 := t0 st; total_time := total_time st;
     t_array := v; time_step := time_step st;
     number_steps := number_steps st; y_matrix := y_matrix st;
     y_output := y_output st; trace := trace st |}.

Definition set_time_step (v : Z) (st : Store F) : Store F :=
  {| args := args st; Cfactor := Cfactor st; num_species := num_species st;
     y0 := y0 st; t0 := t0 st; total_time := total_time st;
     t_array := t_array st; time_step := v;
     number_steps := number_steps st; y_matrix := y_matrix st;
     y_output := y_output st; trace := trace st |}.

Definition set_y_matrix (v : list (list F)) (st : Store F) : Store F :=
  {| args := args st; Cfactor := Cfactor st; num_species := num_species st;
     y0 := y0 st; t0 := t0 st; total_time := total_time st;
     t_array := t_array st; time_step := time_step st;
     number_steps := number_steps st; y_matrix := v;
     y_output := y_output st; trace := trace st |}.

Definition set_y_output (v : list (list F)) (st : Store F) : Store F :=
  {| args := args st; Cfactor := Cfactor st; num_species := num_species st;
     y0 := y0 st; t0 := t0 st; total_time := total_time st;
     t_array := t_array st; time_step := time_step st;
     number_steps := number_steps st; y_matrix := y_matrix st;
     y_output := Some v; trace := trace st |}.

Definition log_batch (b : BatchLog F) (st : Store F) : Store F :=
  {| args := args st; Cfactor := Cfactor st; num_species := num_species st;
     y0 := y0 st; t0 := t0 st; total_time := total_time st;
     t_array := t_array st; time_step := time_step st;
     number_steps := number_steps st; y_matrix := y_matrix st;
     y_output := y_output st; trace := trace st ++ [b] |}.
End Monad.

Declare Scope py_scope.
Delimit Scope py_scope with py.
Notation "x <- m ;; k" := (bind m (fun x => k))
  (at level 100, m at next level, right associativity) : py_scope.
Notation "m ;; k" := (bind m (fun _ => k))
  (at level 100, right associativity) : py_scope.

(** ** The driver *)

Section Driver.
Context {F : Type} `{PyFloat F}.
Variable ext : Externals F.

Local Open Scope py_scope.

(** *** The closures *)

(** [dydt_func(t, y)], lines 59-96.  The free variables [start_time],
    [RO2_indices], [H2O] and [temp] are read from the enclosing scope
    when the closure is called. *)
Definition dydt_func (t : F) (y : list F) : M (list F) :=
  start_time_ <- read (fun st => start_time (args st));;
  let time_of_day_seconds := fadd start_time_ t in
  let y_asnumpy := y in
  RO2_indices_ <- read (fun st => RO2_indices (args st));;
  selected <- lift (numpy_take y RO2_indices_);;
  let RO2 := numpy_sum selected in
  H2O_ <- read (fun st => H2O (args st));;
  temp_ <- read (fun st => temp (args st));;
  let rates := evaluate_rates_fortran ext RO2 H2O_ temp_ time_of_day_seconds in
  let reactants := reactants_fortran ext y_asnumpy in
  reactants <- lift (numpy_multiply reactants rates);;
  let dydt := loss_gain_fortran ext reactants in
  ret dydt.

(** [jacobian(t, y)], lines 100-129. *)
Definition jacobian (t : F) (y : list F) : M (list (list F)) :=
  start_time_ <- read (fun st => start_time (args st));;
  let time_of_day_seconds := fadd start_time_ t in
  let y_asnumpy := y in
  RO2_indices_ <- read (fun st => RO2_indices (args st));;
  selected <- lift (numpy_take y RO2_indices_);;
  let RO2 := numpy_sum selected in
  H2O_ <- read (fun st => H2O (args st));;
  temp_ <- read (fun st => temp (args st));;
  let rates := evaluate_rates_fortran ext RO2 H2O_ temp_ time_of_day_seconds in
  let dydt_dydt := jacobian_fortran ext rates y_asnumpy in
  ret dydt_dydt.

(** *** Running the solver against the closures *)

(** The solver's calls are answered by the closures in the current
    store; [calls] accumulates them, oldest first.  An exception of a
    closure is handed to the solver like a value: what the solver makes
    of it is the solver's business. *)
Fixpoint answer (p : solver_run F) (calls : list (call F))
  : Store F -> (list (call F) * res (trajectory F)) * Store F :=
  fun st =>
    match p with
    | Finish r => ((calls, r), st)
    | AskRhs t y k =>
        let '(r, st') := dydt_func t y st in
        answer (k r) (calls ++ [CallRhs t y]) st'
    | AskJac t y k =>
        let '(r, st') := jacobian t y st in
        answer (k r) (calls ++ [CallJac t y]) st'
    end.

(** [exp_sim.simulate(tfinal)] *)
Definition run_solver (exp_sim : CVodeSim F) (tfinal : F) : M (trajectory F) :=
  fun st =>
    let '((calls, r), st') := answer (simulate ext exp_sim tfinal) [] st in
    (r, log_batch {| log_sim := exp_sim; log_tfinal := tfinal;
                     log_calls := calls; log_result := r |} st').

(** *** Setup, lines 139-179 *)

(** The loop of lines 155-156 over the keys of [species_initial_conc]. *)
Fixpoint populate_y0 (inp : InputDict F) (Cfactor_ : F)
    (keys : list string) (y0_ : list F) : res (list F) :=
  match keys with
  | [] => Ok y0_
  | specie :: rest =>
      res_bind (dict_get (species_initial_conc inp) specie) (fun c =>
      res_bind (gmap_get (species_dict2array inp) specie) (fun idx =>
      res_bind (py_setitem y0_ idx (fmul c Cfactor_)) (fun y0' =>
      populate_y0 inp Cfactor_ rest y0')))
  end.

Definition setup (a : Args F) : res (Store F) :=
  let inp := input_dict a in
  let Cfactor_ := float_lit 255 8 in
  let num_species_ := size (species_dict inp) in
  let y0_ := repeat (float_lit 0 0) num_species_ in
  let t0_ := float_lit 0 0 in
  res_bind (populate_y0 inp Cfactor_ (dict_keys (species_initial_conc inp)) y0_) (fun y0_ =>
  let total_time_ := float_lit 0 0 in
  let t_array_ := [] in
  let time_step_ := 0%Z in
  res_bind (fdiv (simulation_time a) (batch_step a)) (fun q =>
  res_bind (fint q) (fun number_steps_ =>
  res_bind (numpy_zeros number_steps_ (length y0_)) (fun y_matrix_ =>
  Ok {| args := a; Cfactor := Cfactor_; num_species := num_species_;
        y0 := y0_; t0 := t0_; total_time := total_time_;
        t_array := t_array_; time_step := time_step_;
        number_steps := number_steps_; y_matrix := y_matrix_;
        y_output := None; trace := [] |})))).

(** *** One batch, lines 186-222 *)

Definition batch_body : M unit :=
  total_time_ <- read total_time;;
  t0_ <- read t0;;
  filename_ <- read (fun st => filename (args st));;
  exp_mod <-
    (if feqb total_time_ (float_lit 0 0) then
       y0_ <- read y0;;
       ret {| prob_y0 := y0_; prob_t0 := t0_; prob_name := filename_;
              prob_jac := false |}
     else
       y_output_ <- bind (read y_output) (fun o =>
         match o with Some v => ret v | None => lift (Raise UnboundLocalError) end);;
       y0_ <- lift (last_row y_output_);;
       modify (set_y0 y0_);;
       ret {| prob_y0 := y0_; prob_t0 := t0_; prob_name := filename_;
              prob_jac := false |});;
  let exp_mod := {| prob_y0 := prob_y0 exp_mod; prob_t0 := prob_t0 exp_mod;
                    prob_name := prob_name exp_mod; prob_jac := true |} in
  num_species_ <- read num_species;;
  let tol_list := repeat (float_lit 1 (-3)) num_species_ in
  let exp_sim := {| problem := exp_mod; atol := tol_list;
                    rtol := float_lit 1 (-6); inith := float_lit 1 (-6);
                    maxh := float_lit 100 0; usejac := true;
                    report_continuously := true; maxncf := 1000 |} in
  batch_step_ <- read (fun st => batch_step (args st));;
  out <- run_solver exp_sim batch_step_;;
  let '(t_output, y_output_) := out in
  modify (set_y_output y_output_);;
  modify (set_total_time (fadd total_time_ batch_step_));;
  total_time_ <- read total_time;;
  t_array_ <- read t_array;;
  modify (set_t_array (t_array_ ++ [total_time_]));;
  row <- lift (last_row y_output_);;
  y_matrix_ <- read y_matrix;;
  time_step_ <- read time_step;;
  y_matrix_ <- lift (set_row y_matrix_ time_step_ row);;
  modify (set_y_matrix y_matrix_);;
  modify (set_time_step (time_step_ + 1)%Z).

(** *** The loop of line 184 *)

(** [None] when [fuel] iterations were not enough to leave the loop. *)
Fixpoint batch_loop (fuel : nat) (st : Store F) : option (res unit * Store F) :=
  if fltb (total_time st) (simulation_time (args st)) then
    match fuel with
    | O => None
    | S fuel' =>
        match batch_body st with
        | (Ok _, st') => batch_loop fuel' st'
        | (Raise e, st') => Some (Raise e, st')
        end
    end
  else Some (Ok tt, st).

(** How a run ends: setup raised, or the loop stopped, normally or on an
    exception, in some store. *)
Inductive outcome : Type :=
| SetupRaised (e : exn)
| Stopped (r : res unit) (st : Store F).

(** [run_simulation] up to the end of the loop; saving and plotting the
    matrix are left out. *)
Definition run_simulation (fuel : nat) (a : Args F) : option outcome :=
  match setup a with
  | Raise e => Some (SetupRaised e)
  | Ok st =>
      match batch_loop fuel st with
      | Some (r, st') => Some (Stopped r st')
      | None => None
      end
  end.
End Driver.
Arguments SetupRaised {F} e.
Arguments Stopped {F} r st.

(** ** A test double: one first-order reaction A -> B

    Two species, one reaction of rate [k]; the solver takes a single
    explicit Euler step over the batch, asking for the Jacobian first (as a
    solver that was told [usejac] would) and giving up on any exception of
    a closure. *)

Section TestDouble.
Context {F : Type} `{PyFloat F}.
Variable k : F.

Definition ab_rates (RO2 H2O_ temp_ tod : F) : list F := [k].

Definition ab_reactants (y : list F) : list F :=
  match y with
  | a :: _ => [a]
  | [] => []
  end.

Definition ab_loss_gain (r : list F) : list F :=
  match r with
  | x :: _ => [fmul (float_lit (-1) 0) x; x]
  | [] => []
  end.

Definition ab_jacobian (rates y : list F) : list (list F) :=
  match rates with
  | x :: _ => [[fmul (float_lit (-1) 0) x; float_lit 0 0]; [x; float_lit 0 0]]
  | [] => []
  end.

Fixpoint euler_step (h : F) (y dydt : list F) : list F :=
  match y, dydt with
  | a :: y', d :: dydt' => fadd a (fmul h d) :: euler_step h y' dydt'
  | _, _ => []
  end.

Definition euler_simulate (sim : CVodeSim F) (tfinal : F) : solver_run F :=
  let t := prob_t0 (problem sim) in
  let y := prob_y0 (problem sim) in
  AskJac t y (fun j =>
    match j with
    | Raise e => Finish (Raise e)
    | Ok _ =>
        AskRhs t y (fun r =>
          match r with
          | Raise e => Finish (Raise e)
          | Ok dydt => Finish (Ok ([t; tfinal], [y; euler_step tfinal y dydt]))
          end)
    end).

Definition ab_ext : Externals F := {|
  evaluate_rates_fortran := ab_rates;
  reactants_fortran := ab_reactants;
  loss_gain_fortran := ab_loss_gain;
  jacobian_fortran := ab_jacobian;
  simulate := euler_simulate
|}.

(** Species A at position 0 and B at position 1, A starting at [c] ppb. *)
Definition ab_input (c : F) : InputDict F := {|
  species_dict := {[ 0%Z := "A"%string; 1%Z := "B"%string ]};
  species_dict2array := {[ "A"%string := 0%Z; "B"%string := 1%Z ]};
  species_initial_conc := [("A"%string, c)];
  equations := 1
|}.

Definition ab_args (ro2 : list Z) (c horizon step : F) : Args F := {|
  filename := "ab"%string;
  start_time := float_lit 0 0;
  save_output := false;
  temp := float_lit 29315 (-2);
  RH := float_lit 5 (-1);
  RO2_indices := ro2;
  H2O := float_lit 1 0;
  input_dict := ab_input c;
  simulation_time := horizon;
  batch_step := step
|}.
End TestDouble.

(** ** Notions used in the statements *)

Section Notions.
Context {F : Type} `{PyFloat F}.
Variable ext : Externals F.

(** The peroxy aggregate and the rate vector both closures compute. *)
Definition peroxy_sum (a : Args F) (y : list F) : res F :=
  res_bind (numpy_take y (RO2_indices a)) (fun selected => Ok (numpy_sum selected)).

Definition rate_vector (a : Args F) (t : F) (RO2 : F) : list F :=
  evaluate_rates_fortran ext RO2 (H2O a) (temp a) (fadd (start_time a) t).

(** The entries of [y] at the positions [idxs]. *)
Definition entries_at (y : list F) (idxs : list Z) : list F :=
  map (fun i => nth (Z.to_nat i) y (float_lit 0 0)) idxs.

(** The initial state of the next batch: [y0] on the first batch, the last
    row of [y_output] afterwards. *)
Definition batch_init (st : Store F) : res (list F) :=
  if feqb (total_time st) (float_lit 0 0) then Ok (y0 st)
  else match y_output st with
       | Some v => last_row v
       | None => Raise UnboundLocalError
       end.

(** The simulator a batch starting from [y0_] hands to the solver. *)
Definition batch_sim (st : Store F) (y0_ : list F) : CVodeSim F :=
  {| problem := {| prob_y0 := y0_; prob_t0 := t0 st;
                   prob_name := filename (args st); prob_jac := true |};
     atol := repeat (float_lit 1 (-3)) (num_species st);
     rtol := float_lit 1 (-6); inith := float_lit 1 (-6);
     maxh := float_lit 100 0; usejac := true;
     report_continuously := true; maxncf := 1000 |}.

(** The log entry of the batch starting from [y0_] in store [st]. *)
Definition batch_log (st : Store F) (y0_ : list F) : BatchLog F :=
  let cr := fst (answer ext (simulate ext (batch_sim st y0_) (batch_step (args st))) [] st) in
  {| log_sim := batch_sim st y0_; log_tfinal := batch_step (args st);
     log_calls := fst cr; log_result := snd cr |}.

(** The store once the solver has returned [ys] and the elapsed time has
    been advanced and recorded. *)
Definition after_solve (st : Store F) (y0_ : list F) (ys : list (list F)) : Store F :=
  let st1 := if feqb (total_time st) (float_lit 0 0) then st else set_y0 y0_ st in
  let st2 := log_batch (batch_log st y0_) st1 in
  let total := fadd (total_time st) (batch_step (args st)) in
  set_t_array (t_array st ++ [total]) (set_total_time total (set_y_output ys st2)).

(** What a batch writes to the log. *)
Definition logged_by (st0 : Store F) (log : BatchLog F) : Prop :=
  prob_t0 (problem (log_sim log)) = t0 st0 /\
  log_tfinal log = batch_step (args st0) /\
  (log_calls log, log_result log) =
    fst (answer ext (simulate ext (log_sim log) (log_tfinal log)) [] st0).

(** The part of the store no batch touches, and the shape of the log. *)
Record frame_inv (st0 st : Store F) : Prop := {
  fi_args : args st = args st0;
  fi_Cfactor : Cfactor st = Cfactor st0;
  fi_num_species : num_species st = num_species st0;
  fi_t0 : t0 st = t0 st0;
  fi_number_steps : number_steps st = number_steps st0;
  fi_logs : Forall (logged_by st0) (trace st)
}.

(** The state vector setup builds: zeros, then the loop of lines 155-156. *)
Definition initial_y0 (a : Args F) : res (list F) :=
  populate_y0 (input_dict a) (float_lit 255 8)
    (dict_keys (species_initial_conc (input_dict a)))
    (repeat (float_lit 0 0) (size (species_dict (input_dict a)))).

(** The species-to-position mapping is one-to-one and stays inside the
    state vector. *)
Definition index_map_ok (inp : InputDict F) : Prop :=
  (forall s1 s2 i, species_dict2array inp !! s1 = Some i ->
                   species_dict2array inp !! s2 = Some i -> s1 = s2) /\
  (forall s i, species_dict2array inp !! s = Some i ->
               (0 <= i < Z.of_nat (size (species_dict inp)))%Z).

(** The species given a concentration are listed once and are known to the
    mapping. *)
Definition conc_ok (inp : InputDict F) : Prop :=
  NoDup (dict_keys (species_initial_conc inp)) /\
  (forall s, In s (dict_keys (species_initial_conc inp)) ->
             is_Some (species_dict2array inp !! s)).

(** The store setup leaves. *)
Record initial (a : Args F) (st0 : Store F) : Prop := {
  init_args : args st0 = a;
  init_Cfactor : Cfactor st0 = float_lit 255 8;
  init_num_species : num_species st0 = size (species_dict (input_dict a));
  init_y0 : initial_y0 a = Ok (y0 st0);
  init_y0_length : length (y0 st0) = size (species_dict (input_dict a));
  init_t0 : t0 st0 = float_lit 0 0;
  init_total_time : total_time st0 = float_lit 0 0;
  init_t_array : t_array st0 = [];
  init_time_step : time_step st0 = 0%Z;
  init_y_output : y_output st0 = None;
  init_trace : trace st0 = [];
  init_steps : exists q, fdiv (simulation_time a) (batch_step a) = Ok q /\
                         fint q = Ok (number_steps st0);
  init_steps_nonneg : (0 <= number_steps st0)%Z;
  init_y_matrix : y_matrix st0 =
    repeat (repeat (float_lit 0 0) (length (y0 st0))) (Z.to_nat (number_steps st0))
}.

(** Setup never looks at the peroxy indices. *)
Definition with_RO2_indices (ro2 : list Z) (a : Args F) : Args F :=
  {| filename := filename a; start_time := start_time a;
     save_output := save_output a; temp := temp a; RH := RH a;
     RO2_indices := ro2; H2O := H2O a; input_dict := input_dict a;
     simulation_time := simulation_time a; batch_step := batch_step a |}.

Definition with_args (a : Args F) (st : Store F) : Store F :=
  {| args := a; Cfactor := Cfactor st; num_species := num_species st;
     y0 := y0 st; t0 := t0 st; total_time := total_time st;
     t_array := t_array st; time_step := time_step st;
     number_steps := number_steps st; y_matrix := y_matrix st;
     y_output := y_output st; trace := trace st |}.

(** The elapsed time after [k] batches of duration [b]: [k] additions of
    [b] to [0.0]. *)
Definition elapsed (b : F) (k : nat) : F :=
  Nat.iter k (fun x => fadd x b) (float_lit 0 0).

(** The initial state a logged batch started from, and the last state of
    the trajectory it returned. *)
Definition log_start (log : BatchLog F) : list F := prob_y0 (problem (log_sim log)).

Definition log_last (log : BatchLog F) : option (list F) :=
  match log_result log with
  | Ok (_, ys) => match last_row ys with Ok row => Some row | Raise _ => None end
  | Raise _ => None
  end.

(** The state the batch after the log [tr] has to start from. *)
Definition next_start (init : list F) (tr : list (BatchLog F)) : option (list F) :=
  match last tr with
  | None => Some init
  | Some log => log_last log
  end.

(** The solver returns states of the dimension it was started with. *)
Definition keeps_shape (a : Args F) (n : nat) : Prop :=
  forall sim tf st ts ys row,
    args st = a -> length (prob_y0 (problem sim)) = n ->
    snd (fst (answer ext (simulate ext sim tf) [] st)) = Ok (ts, ys) ->
    last_row ys = Ok row -> length row = n.

(** The elapsed time is [0.0] before the first batch and not after any of
    the next [n]. *)
Definition zero_only_at_start (b : F) (n : nat) : Prop :=
  feqb (float_lit 0 0) (float_lit 0 0) = true /\
  forall k, (k < n)%nat -> feqb (elapsed b (S k)) (float_lit 0 0) = false.

(** What holds of the store wherever the loop stops. *)
Record final_inv (st0 st : Store F) : Prop := {
  fin_frame : frame_inv st0 st;
  fin_step : (Z.of_nat (length (trace st)) - 1 <= time_step st
              <= Z.of_nat (length (trace st)))%Z;
  fin_total : total_time st = elapsed (batch_step (args st0)) (length (t_array st));
  fin_t_array : t_array st =
    map (elapsed (batch_step (args st0))) (seq 1 (length (t_array st)));
  fin_chain : forall k log, trace st !! k = Some log ->
    next_start (y0 st0) (take k (trace st)) = Some (log_start log);
  fin_rows : forall k log, trace st !! k = Some log ->
    (Z.of_nat k < time_step st)%Z ->
    exists row, log_last log = Some row /\ y_matrix st !! k = Some row;
  fin_shape : Forall (fun r => length r = length (y0 st0)) (y_matrix st);
  fin_height : length (y_matrix st) = length (y_matrix st0)
}.

(** What holds in addition at the head of the loop. *)
Record head_inv (st0 st : Store F) : Prop := {
  hd_final : final_inv st0 st;
  hd_step : time_step st = Z.of_nat (length (trace st));
  hd_count : length (t_array st) = length (trace st);
  hd_next : exists x, batch_init st = Ok x /\
                      next_start (y0 st0) (trace st) = Some x /\
                      length x = length (y0 st0)
}.

(** Every solver invocation started from a state of dimension [n] returns a
    trajectory whose last state has dimension [n]. *)
Definition solver_succeeds (a : Args F) (n : nat) : Prop :=
  forall sim tf st,
    args st = a -> length (prob_y0 (problem sim)) = n ->
    exists ts ys row,
      snd (fst (answer ext (simulate ext sim tf) [] st)) = Ok (ts, ys) /\
      last_row ys = Ok row /\ length row = n.

(** The loop test holds before each of the first [n] batches and fails
    after the [n]-th. *)
Definition loop_runs (a : Args F) (n : nat) : Prop :=
  (forall k, (k < n)%nat ->
     fltb (elapsed (batch_step a) k) (simulation_time a) = true) /\
  fltb (elapsed (batch_step a) n) (simulation_time a) = false.

Definition loop_runs_b (a : Args F) (n : nat) : bool :=
  forallb (fun k => fltb (elapsed (batch_step a) k) (simulation_time a)) (seq 0 n)
  && negb (fltb (elapsed (batch_step a) n) (simulation_time a)).

Definition zero_only_at_start_b (b : F) (n : nat) : bool :=
  feqb (float_lit 0 0) (float_lit 0 0)
  && forallb (fun k => negb (feqb (elapsed b (S k)) (float_lit 0 0))) (seq 0 n).
End Notions.

Section SpanNotions.
Context {F : Type} `{PyFloat F}.
Variable le : F -> F -> Prop.
Variable ext : Externals F.

(** Every call the solver makes is at a time between [lo] and [hi],
    whatever the closures answer. *)
Fixpoint calls_within (lo hi : F) (p : solver_run F) : Prop :=
  match p with
  | Finish _ => True
  | AskRhs t _ k => le lo t /\ le t hi /\ forall r, calls_within lo hi (k r)
  | AskJac t _ k => le lo t /\ le t hi /\ forall r, calls_within lo hi (k r)
  end.

(** The solver contract: integrating from the problem's [t0] to [tfinal]
    evaluates the closures only inside that interval. *)
Definition stays_in_span : Prop :=
  forall sim tf, le (prob_t0 (problem sim)) tf ->
    calls_within (prob_t0 (problem sim)) tf (simulate ext sim tf).

Definition time_within (lo hi : F) (c : call F) : Prop :=
  le lo (call_time c) /\ le (call_time c) hi.
End SpanNotions.

(** The rational a finite binary64 number stands for. *)
Definition b64_value (x : spec_float) : option Q :=
  match x with
  | S754_zero _ => Some 0%Q
  | S754_finite s m e =>
      let v := match e with
               | Zneg p => Qmake (Zpos m) (2 ^ p)
               | _ => inject_Z (Zpos m * 2 ^ e)
               end in
      Some (if s then Qopp v else v)
  | _ => None
  end.

(** The elapsed times 100, 200, ..., 3600. *)
Definition hundreds_to_3600 {F : Type} `{PyFloat F} : list F :=
  map (fun k => float_lit (100 * Z.of_nat k) 0) (seq 1 36).

(** The time series of a run over 3600 in batches of 100: with a solver
    that succeeds and enough fuel the loop stops normally, the matrix has
    36 rows, all 36 were written, and the recorded times are
    [hundreds_to_3600]. *)
Definition thirty_six_rows {F : Type} `{PyFloat F} (ext : Externals F) (a : Args F) : Prop :=
  forall st0, setup a = Ok st0 ->
  solver_succeeds ext a (length (y0 st0)) ->
  forall fuel, (36 <= fuel)%nat ->
  exists st, run_simulation ext fuel a = Some (Stopped (Ok tt) st) /\
    length (y_matrix st) = 36%nat /\ time_step st = 36%Z /\
    length (trace st) = 36%nat /\
    t_array st = hundreds_to_3600.

(** What C2 asks of setup on an inconsistent configuration. *)
Definition rejected_at_setup {F : Type} `{PyFloat F} (a : Args F) : Prop :=
  exists e, setup a = Raise e.

(** ** Concrete runs of the test double *)

(** Rate 1e-3 and one ppb of A, in exact arithmetic and in binary64. *)
Definition rate_Q : Q := float_lit 1 (-3).
Definition rate_b64 : spec_float := float_lit 1 (-3).

Definition args_Q (ro2 : list Z) (horizon step : Q) : Args Q :=
  ab_args ro2 (float_lit 1 0) horizon step.

Definition args_b64 (ro2 : list Z) (horizon step : spec_float) : Args spec_float :=
  ab_args ro2 (float_lit 1 0) horizon step.

(** A store of the test double before the first batch, with no rows. *)
Definition ab_store {F : Type} `{PyFloat F} (a : Args F) : Store F :=
  {| args := a; Cfactor := float_lit 255 8; num_species := 2;
     y0 := [float_lit 255 8; float_lit 0 0]; t0 := float_lit 0 0;
     total_time := float_lit 0 0; t_array := []; time_step := 0;
     number_steps := 0; y_matrix := []; y_output := None; trace := [] |}.

Definition store_Q (ro2 : list Z) : Store Q :=
  ab_store (args_Q ro2 (float_lit 300 0) (float_lit 100 0)).

(** The store a run stopped in, and the store setup returned. *)
Definition stopped_store {F : Type} (o : option (@outcome F)) (d : Store F) : Store F :=
  match o with
  | Some (Stopped _ st) => st
  | _ => d
  end.

Definition started_store {F : Type} (r : res (Store F)) (d : Store F) : Store F :=
  match r with
  | Ok st => st
  | Raise _ => d
  end.

Definition args_300_100 : Args Q := args_Q [] (float_lit 300 0) (float_lit 100 0).

Definition st0_300_100 : Store Q := started_store (setup args_300_100) (store_Q []).

Definition st_300_100 : Store Q :=
  stopped_store (run_simulation (ab_ext rate_Q) 5 args_300_100) (store_Q []).

Definition args_3600_100_Q : Args Q := args_Q [] (float_lit 3600 0) (float_lit 100 0).

Definition args_3600_100_b64 : Args spec_float :=
  args_b64 [] (float_lit 3600 0) (float_lit 100 0).

Definition args_250_100 : Args Q := args_Q [] (float_lit 250 0) (float_lit 100 0).

Definition args_250_100_b64 : Args spec_float :=
  args_b64 [] (float_lit 250 0) (float_lit 100 0).

Definition st_250_100_b64 : Store spec_float :=
  stopped_store (run_simulation (ab_ext rate_b64) 10 args_250_100_b64)
    (ab_store args_250_100_b64).

Definition args_bad_peroxy : Args Q := with_RO2_indices [5%Z] args_300_100.

Definition st_bad_peroxy : Store Q :=
  stopped_store (run_simulation (ab_ext rate_Q) 5 args_bad_peroxy)
    (ab_store args_bad_peroxy).

Definition args_08_01 : Args spec_float :=
  args_b64 [] (float_lit 8 (-1)) (float_lit 1 (-1)).

Definition st_08_01 : Store spec_float :=
  stopped_store (run_simulation (ab_ext rate_b64) 20 args_08_01) (ab_store args_08_01).

(** ** Accounting for a run *)

Section Accounting.
Context {F : Type} `{PyFloat F}.
Variable ext : Externals F.

(** A position counted from either end of a sequence of length [n]. *)
Definition in_range (n : nat) (i : Z) : Prop :=
  (- Z.of_nat n <= i < Z.of_nat n)%Z.

(** The position index [i] denotes in a sequence of length [n]. *)
Definition wrapped (n : nat) (i : Z) : nat := Z.to_nat (i mod Z.of_nat n).

(** The species that can be written: known to the mapping, at a position
    inside the vector. *)
Definition writable (inp : InputDict F) (n : nat) (s : string) : Prop :=
  exists i, species_dict2array inp !! s = Some i /\ in_range n i.

(** What holds at the head of the loop after the batches logged in
    [trace], whatever the solver did: the counters agree with the log,
    every logged invocation returned a trajectory with a last state and
    was configured alike, the matrix has kept its shape, and the rows from
    [time_step] on are as [numpy.zeros] left them. *)
Record count_inv (st0 st : Store F) : Prop := {
  ci_frame : frame_inv ext st0 st;
  ci_step : time_step st = Z.of_nat (length (trace st));
  ci_count : length (t_array st) = length (trace st);
  ci_total : total_time st = elapsed (batch_step (args st0)) (length (trace st));
  ci_times : t_array st =
    map (elapsed (batch_step (args st0))) (seq 1 (length (trace st)));
  ci_results : Forall (fun log => is_Some (log_last log)) (trace st);
  ci_sims : Forall (fun log => log_sim log = batch_sim st0 (log_start log)) (trace st);
  ci_output : forall log, last (trace st) = Some log ->
    exists ts ys, log_result log = Ok (ts, ys) /\ y_output st = Some ys;
  ci_height : length (y_matrix st) = length (y_matrix st0);
  ci_width : Forall (fun r => length r = length (y0 st0)) (y_matrix st);
  ci_written : (length (trace st) <= length (y_matrix st0))%nat;
  ci_unwritten : forall j,
    (length (trace st) <= j < length (y_matrix st0))%nat ->
    y_matrix st !! j = Some (repeat (float_lit 0 0) (length (y0 st0)))
}.

(** The four ways the loop stops: the test fails; the initial state of
    the next batch cannot be read; the solver raises; the last state of
    the trajectory cannot be recorded. *)
Inductive stop_state (st0 : Store F) : res unit -> Store F -> Prop :=
| stop_normal (st : Store F) :
    count_inv st0 st ->
    fltb (total_time st) (simulation_time (args st)) = false ->
    stop_state st0 (Ok tt) st
| stop_init (st : Store F) (e : exn) :
    count_inv st0 st ->
    batch_init st = Raise e ->
    stop_state st0 (Raise e) st
| stop_solver (prev : Store F) (x : list F) (e : exn) :
    count_inv st0 prev ->
    batch_init prev = Ok x ->
    log_result (batch_log ext prev x) = Raise e ->
    stop_state st0 (Raise e)
      (log_batch (batch_log ext prev x)
         (if feqb (total_time prev) (float_lit 0 0) then prev else set_y0 x prev))
| stop_record (prev : Store F) (x : list F) (ts : list F) (ys : list (list F)) (e : exn) :
    count_inv st0 prev ->
    batch_init prev = Ok x ->
    log_result (batch_log ext prev x) = Ok (ts, ys) ->
    (last_row ys = Raise e \/
     exists row, last_row ys = Ok row /\
                 set_row (y_matrix prev) (time_step prev) row = Raise e) ->
    stop_state st0 (Raise e) (after_solve ext prev x ys).
End Accounting.

(** A solver that raises on every invocation, without calling back. *)
Definition failing_simulate {F : Type} (sim : CVodeSim F) (tfinal : F) : solver_run F :=
  Finish (Raise (SolverError "convergence failure")).

Definition failing_ext {F : Type} `{PyFloat F} (k : F) : Externals F :=
  {| evaluate_rates_fortran := ab_rates k;
     reactants_fortran := ab_reactants;
     loss_gain_fortran := ab_loss_gain;
     jacobian_fortran := ab_jacobian;
     simulate := failing_simulate |}.

(** ** More concrete runs *)

Definition st_250_100 : Store Q :=
  stopped_store (run_simulation (ab_ext rate_Q) 3 args_250_100) (store_Q []).

(** The failing solver on a horizon of 300 in batches of 100. *)
Definition st_failing : Store Q :=
  stopped_store (run_simulation (failing_ext rate_Q) 5 args_300_100) (store_Q []).

(** A horizon shorter than one batch, a zero horizon, a zero step. *)
Definition args_50_100 : Args Q := args_Q [] (float_lit 50 0) (float_lit 100 0).

Definition st0_50_100 : Store Q := started_store (setup args_50_100) (store_Q []).

Definition args_0_100 : Args spec_float :=
  args_b64 [] (float_lit 0 0) (float_lit 100 0).

Definition args_300_0 : Args Q := args_Q [] (float_lit 300 0) (float_lit 0 0).

(** Two named species written to one position: B is mapped to -2, which
    is position 0 of a vector of two. *)
Definition clash_input : InputDict Q := {|
  species_dict := {[ 0%Z := "A"%string; 1%Z := "B"%string ]};
  species_dict2array := {[ "A"%string := 0%Z; "B"%string := (-2)%Z ]};
  species_initial_conc := [("A"%string, float_lit 1 0); ("B"%string, float_lit 2 0)];
  equations := 1
|}.

Definition clash_args : Args Q := {|
  filename := "clash"%string;
  start_time := float_lit 0 0;
  save_output := false;
  temp := float_lit 29315 (-2);
  RH := float_lit 5 (-1);
  RO2_indices := [];
  H2O := float_lit 1 0;
  input_dict := clash_input;
  simulation_time := float_lit 300 0;
  batch_step := float_lit 100 0
|}.

Definition st0_08_01 : Store spec_float :=
  started_store (setup args_08_01) (ab_store args_08_01).

(** ** Basic facts about indexing *)

Lemma py_index_nonneg (n : nat) (i : Z) :
  (0 <= i < Z.of_nat n)%Z -> py_index n i = Ok (Z.to_nat i).
Proof.
  intros [Hlo Hhi]. unfold py_index.
  apply Z.leb_le in Hlo. apply Z.ltb_lt in Hhi.
  now rewrite Hlo, Hhi.
Qed.

Lemma py_index_of_nat (n k : nat) :
  (k < n)%nat -> py_index n (Z.of_nat k) = Ok k.
Proof.
  intros Hk. rewrite py_index_nonneg by lia. now rewrite Nat2Z.id.
Qed.

Lemma py_index_past_end (n : nat) (i : Z) :
  (Z.of_nat n <= i)%Z -> py_index n i = Raise IndexError.
Proof.
  intros Hi. unfold py_index.
  assert (H1 : (i <? Z.of_nat n)%Z = false) by (apply Z.ltb_ge; lia).
  assert (H2 : (i <? 0)%Z = false) by (apply Z.ltb_ge; lia).
  now rewrite H1, H2, !andb_false_r.
Qed.

Lemma py_index_before_start (n : nat) (i : Z) :
  (i < - Z.of_nat n)%Z -> py_index n i = Raise IndexError.
Proof.
  intros Hi. unfold py_index.
  assert (H1 : (0 <=? i)%Z = false) by (apply Z.leb_gt; lia).
  assert (H2 : (- Z.of_nat n <=? i)%Z = false) by (apply Z.leb_gt; lia).
  now rewrite H1, H2.
Qed.

Lemma py_index_bound (n : nat) (i : Z) (k : nat) :
  py_index n i = Ok k -> (k < n)%nat.
Proof.
  unfold py_index.
  destruct ((0 <=? i)%Z && (i <? Z.of_nat n)%Z) eqn:E1.
  - apply andb_true_iff in E1 as [H1 H2].
    apply Z.leb_le in H1. apply Z.ltb_lt in H2.
    intros [= <-]. lia.
  - destruct ((- Z.of_nat n <=? i)%Z && (i <? 0)%Z) eqn:E2; [|discriminate].
    apply andb_true_iff in E2 as [H1 H2].
    apply Z.leb_le in H1. apply Z.ltb_lt in H2.
    intros [= <-]. lia.
Qed.

Lemma py_getitem_nonneg {A} (l : list A) (i : Z) (d : A) :
  (0 <= i < Z.of_nat (length l))%Z -> py_getitem l i = Ok (nth (Z.to_nat i) l d).
Proof.
  intros Hi. unfold py_getitem. rewrite py_index_nonneg by exact Hi. simpl.
  destruct (l !! Z.to_nat i) as [x|] eqn:E.
  - f_equal. symmetry. now apply nth_lookup_Some with (d := d) in E.
  - apply lookup_ge_None in E. lia.
Qed.

Lemma py_getitem_out_of_range {A} (l : list A) (i : Z) :
  (Z.of_nat (length l) <= i \/ i < - Z.of_nat (length l))%Z ->
  py_getitem l i = Raise IndexError.
Proof.
  intros [Hi|Hi]; unfold py_getitem.
  - now rewrite py_index_past_end.
  - now rewrite py_index_before_start.
Qed.

Lemma numpy_take_nonneg {A} (y : list A) (idxs : list Z) (d : A) :
  Forall (fun i => 0 <= i < Z.of_nat (length y))%Z idxs ->
  numpy_take y idxs = Ok (map (fun i => nth (Z.to_nat i) y d) idxs).
Proof.
  induction 1 as [|i rest Hi _ IH]; simpl; [reflexivity|].
  rewrite (py_getitem_nonneg y i d Hi). simpl. now rewrite IH.
Qed.

Lemma numpy_take_out_of_range {A} (y : list A) (idxs : list Z) :
  Exists (fun i => Z.of_nat (length y) <= i \/ i < - Z.of_nat (length y))%Z idxs ->
  numpy_take y idxs = Raise IndexError.
Proof.
  induction 1 as [i rest Hi | i rest _ IH]; simpl.
  - now rewrite py_getitem_out_of_range.
  - destruct (py_getitem y i) as [x|e] eqn:E; simpl.
    + now rewrite IH.
    + unfold py_getitem in E.
      destruct (py_index (length y) i) as [k|e'] eqn:Ek; simpl in E.
      * destruct (y !! k); [discriminate | congruence].
      * unfold py_index in Ek.
        destruct ((0 <=? i)%Z && (i <? Z.of_nat (length y))%Z); [discriminate|].
        destruct ((- Z.of_nat (length y) <=? i)%Z && (i <? 0)%Z); [discriminate|].
        congruence.
Qed.

Lemma lookup_repeat {A} (x : A) (n i : nat) :
  (i < n)%nat -> repeat x n !! i = Some x.
Proof.
  revert i. induction n as [|n IH]; intros i Hi; [lia|].
  destruct i as [|i]; simpl; [reflexivity|]. apply IH. lia.
Qed.

Lemma last_row_last {F} (m : list (list F)) (row : list F) :
  last_row m = Ok row -> last m = Some row.
Proof.
  unfold last_row, py_getitem, py_index. simpl.
  destruct m as [|r0 m'] using rev_ind; [discriminate|].
  rewrite length_app. simpl.
  replace (- Z.of_nat (length m' + 1) <=? -1)%Z with true
    by (symmetry; apply Z.leb_le; lia).
  simpl.
  replace (Z.to_nat (-1 + Z.of_nat (length m' + 1))) with (length m') by lia.
  rewrite lookup_app_r by lia. rewrite Nat.sub_diag. simpl.
  intros [= ->]. now rewrite last_snoc.
Qed.

(** ** The closures are functions of their arguments and of [args] *)

Section Closures.
Context {F : Type} `{PyFloat F}.
Variable ext : Externals F.

Lemma dydt_func_unfold (t : F) (y : list F) (st : Store F) :
  dydt_func ext t y st =
  (res_bind (peroxy_sum (args st) y) (fun RO2 =>
   res_bind (numpy_multiply (reactants_fortran ext y) (rate_vector ext (args st) t RO2))
     (fun r => Ok (loss_gain_fortran ext r))), st).
Proof.
  unfold dydt_func, peroxy_sum, rate_vector, bind, read, lift, ret. simpl.
  destruct (numpy_take y (RO2_indices (args st))) as [sel|e]; simpl; [|reflexivity].
  destruct (numpy_multiply _ _); reflexivity.
Qed.

Lemma jacobian_unfold (t : F) (y : list F) (st : Store F) :
  jacobian ext t y st =
  (res_bind (peroxy_sum (args st) y) (fun RO2 =>
   Ok (jacobian_fortran ext (rate_vector ext (args st) t RO2) y)), st).
Proof.
  unfold jacobian, peroxy_sum, rate_vector, bind, read, lift, ret. simpl.
  destruct (numpy_take y (RO2_indices (args st))) as [sel|e]; reflexivity.
Qed.

Lemma numpy_multiply_same_length (a b : list F) :
  length a = length b -> numpy_multiply a b = Ok (zip_mul a b).
Proof.
  intros E. unfold numpy_multiply. apply Nat.eqb_eq in E. now rewrite E.
Qed.

(** Answering the solver's calls leaves the store as it was. *)
Lemma answer_frame (p : solver_run F) :
  forall calls st, snd (answer ext p calls st) = st.
Proof.
  induction p as [r | t y k IH | t y k IH]; intros calls st; simpl.
  - reflexivity.
  - rewrite dydt_func_unfold. apply IH.
  - rewrite jacobian_unfold. apply IH.
Qed.

(** The result of a solver invocation depends on the store only
    through [args]. *)
Lemma answer_args (p : solver_run F) :
  forall calls st st', args st = args st' ->
    fst (answer ext p calls st) = fst (answer ext p calls st').
Proof.
  induction p as [r | t y k IH | t y k IH]; intros calls st st' E; simpl.
  - reflexivity.
  - rewrite !dydt_func_unfold, E. now apply IH.
  - rewrite !jacobian_unfold, E. now apply IH.
Qed.

(** The calls already made stay at the front of the log. *)
Lemma answer_calls_prefix (p : solver_run F) :
  forall calls st, exists more,
    fst (fst (answer ext p calls st)) = calls ++ more.
Proof.
  induction p as [r | t y k IH | t y k IH]; intros calls st; simpl.
  - exists []. now rewrite app_nil_r.
  - rewrite dydt_func_unfold.
    destruct (IH (res_bind (peroxy_sum (args st) y) (fun RO2 =>
       res_bind (numpy_multiply (reactants_fortran ext y)
                   (rate_vector ext (args st) t RO2))
         (fun r => Ok (loss_gain_fortran ext r))))
       (calls ++ [CallRhs t y]) st) as [more E].
    exists (CallRhs t y :: more). rewrite E. now rewrite <- app_assoc.
  - rewrite jacobian_unfold.
    destruct (IH (res_bind (peroxy_sum (args st) y) (fun RO2 =>
       Ok (jacobian_fortran ext (rate_vector ext (args st) t RO2) y)))
       (calls ++ [CallJac t y]) st) as [more E].
    exists (CallJac t y :: more). rewrite E. now rewrite <- app_assoc.
Qed.
End Closures.

(** ** The RHS and Jacobian evaluators *)

Section Evaluators.
Context {F : Type} `{PyFloat F}.
Variable ext : Externals F.

(** C3.  For every time offset [t] and state vector [y] that the peroxy
    indices fit, with the two per-reaction vectors of one length,
    [dydt_func] returns the loss-gain kernel applied to the element-wise
    product of the reactant products of [y] and the rates evaluated at
    [(RO2, H2O, temp, start_time + t)], where [RO2] is the sum of the
    entries of [y] at [RO2_indices]; an empty index subset gives
    [RO2 = 0]; the store is left unchanged. *)
Theorem dydt_func_spec (st : Store F) (t : F) (y : list F) :
  Forall (fun i => 0 <= i < Z.of_nat (length y))%Z (RO2_indices (args st)) ->
  (forall RO2 h2o tmp tod,
      length (reactants_fortran ext y) =
      length (evaluate_rates_fortran ext RO2 h2o tmp tod)) ->
  let RO2 := numpy_sum (entries_at y (RO2_indices (args st))) in
  let rates := evaluate_rates_fortran ext RO2 (H2O (args st)) (temp (args st))
                 (fadd (start_time (args st)) t) in
  dydt_func ext t y st =
    (Ok (loss_gain_fortran ext (zip_mul (reactants_fortran ext y) rates)), st)
  /\ (RO2_indices (args st) = [] -> RO2 = float_lit 0 0).
Proof.
  intros Hidx Hlen RO2 rates. split.
  - rewrite dydt_func_unfold. unfold peroxy_sum.
    rewrite (numpy_take_nonneg y _ (float_lit 0 0) Hidx). simpl.
    unfold rate_vector. fold (entries_at y (RO2_indices (args st))).
    fold RO2. fold rates.
    now rewrite numpy_multiply_same_length by apply Hlen.
  - intros E. unfold RO2. now rewrite E.
Qed.

(** C4.  For every time offset [t] and state vector [y] that the peroxy
    indices fit, [jacobian] returns the Jacobian-assembly kernel applied
    to the rate vector and [y], the rate vector being the rate kernel at
    [(RO2, H2O, temp, start_time + t)] with [RO2] the sum of [y] at
    [RO2_indices]; [dydt_func] on the same arguments uses the very same
    rate vector; neither evaluator changes the store, so the answer of
    one does not depend on earlier calls of the other. *)
Theorem jacobian_spec (st : Store F) (t : F) (y : list F) :
  Forall (fun i => 0 <= i < Z.of_nat (length y))%Z (RO2_indices (args st)) ->
  let RO2 := numpy_sum (entries_at y (RO2_indices (args st))) in
  let rates := evaluate_rates_fortran ext RO2 (H2O (args st)) (temp (args st))
                 (fadd (start_time (args st)) t) in
  jacobian ext t y st = (Ok (jacobian_fortran ext rates y), st)
  /\ fst (dydt_func ext t y st) =
       res_bind (numpy_multiply (reactants_fortran ext y) rates)
         (fun r => Ok (loss_gain_fortran ext r))
  /\ (forall t' y', jacobian ext t y (snd (dydt_func ext t' y' st))
                    = jacobian ext t y st)
  /\ (forall t' y', dydt_func ext t y (snd (jacobian ext t' y' st))
                    = dydt_func ext t y st).
Proof.
  intros Hidx RO2 rates. repeat split.
  - rewrite jacobian_unfold. unfold peroxy_sum.
    now rewrite (numpy_take_nonneg y _ (float_lit 0 0) Hidx).
  - rewrite dydt_func_unfold. unfold peroxy_sum.
    now rewrite (numpy_take_nonneg y _ (float_lit 0 0) Hidx).
  - intros t' y'. now rewrite (dydt_func_unfold ext t' y').
  - intros t' y'. now rewrite (jacobian_unfold ext t' y').
Qed.
End Evaluators.

(** ** One batch, step by step *)

Section Batch.
Context {F : Type} `{PyFloat F}.
Variable ext : Externals F.

Lemma batch_body_unfold (st : Store F) :
  batch_body ext st =
  match batch_init st with
  | Raise e => (Raise e, st)
  | Ok y0_ =>
      let st1 := if feqb (total_time st) (float_lit 0 0) then st else set_y0 y0_ st in
      match log_result (batch_log ext st y0_) with
      | Raise e => (Raise e, log_batch (batch_log ext st y0_) st1)
      | Ok (ts, ys) =>
          match last_row ys with
          | Raise e => (Raise e, after_solve ext st y0_ ys)
          | Ok row =>
              match set_row (y_matrix st) (time_step st) row with
              | Raise e => (Raise e, after_solve ext st y0_ ys)
              | Ok m =>
                  (Ok tt, set_time_step (time_step st + 1)
                            (set_y_matrix m (after_solve ext st y0_ ys)))
              end
          end
      end
  end.
Proof.
  unfold batch_body, batch_init, after_solve, batch_log.
  unfold bind at 1. unfold read at 1.
  unfold bind at 1. unfold read at 1.
  unfold bind at 1. unfold read at 1.
  unfold bind at 1.
  destruct (feqb (total_time st) (float_lit 0 0)) eqn:Ez.
  - unfold bind at 1. unfold read at 1. unfold ret at 1.
    unfold bind, read, run_solver, modify, lift, ret. simpl.
    fold (batch_sim st (y0 st)).
    pose proof (answer_frame ext (simulate ext (batch_sim st (y0 st)) (batch_step (args st))) [] st) as Hfr.
    destruct (answer ext _ [] st) as [[calls r] st'] eqn:Ea. simpl in Hfr. subst st'.
    simpl. destruct r as [[ts ys]|e]; simpl; [|reflexivity].
    destruct (last_row ys) as [row|e]; simpl; [|reflexivity].
    destruct (set_row (y_matrix st) (time_step st) row) as [m|e]; reflexivity.
  - unfold bind at 1. unfold bind at 1. unfold read at 1.
    destruct (y_output st) as [v|] eqn:Ey; [|reflexivity].
    unfold ret at 1. unfold bind at 1. unfold lift at 1.
    destruct (last_row v) as [y0_|e] eqn:El; [|reflexivity].
    unfold bind, read, run_solver, modify, lift, ret. simpl.
    fold (batch_sim st y0_).
    pose proof (answer_frame ext (simulate ext (batch_sim st y0_) (batch_step (args st))) [] (set_y0 y0_ st)) as Hfr.
    pose proof (answer_args ext (simulate ext (batch_sim st y0_) (batch_step (args st))) [] (set_y0 y0_ st) st eq_refl) as Har.
    destruct (answer ext _ [] (set_y0 y0_ st)) as [[calls r] st'] eqn:Ea.
    simpl in Hfr. subst st'. simpl in Har. rewrite <- Har.
    simpl. destruct r as [[ts ys]|e]; simpl; [|reflexivity].
    destruct (last_row ys) as [row|e]; simpl; [|reflexivity].
    destruct (set_row (y_matrix st) (time_step st) row) as [m|e]; reflexivity.
Qed.
End Batch.

(** ** The loop: what every run preserves *)

Section LoopRule.
Context {F : Type} `{PyFloat F}.
Variable ext : Externals F.

(** A loop rule with separate conditions for the head of the loop and for
    the store in which the loop stops. *)
Lemma batch_loop_rule (I Q : Store F -> Prop) :
  (forall st, I st -> Q st) ->
  (forall st st', I st -> batch_body ext st = (Ok tt, st') -> I st') ->
  (forall st st' e, I st -> batch_body ext st = (Raise e, st') -> Q st') ->
  forall fuel st r st',
    I st -> batch_loop ext fuel st = Some (r, st') -> Q st'.
Proof.
  intros Hfin Hstep Hfault. induction fuel as [|fuel IH]; intros st r st' Hi; simpl.
  - destruct (fltb _ _); [discriminate|]. intros [= _ <-]. now apply Hfin.
  - destruct (fltb _ _).
    + destruct (batch_body ext st) as [[[]|e] st1] eqn:Eb.
      * apply IH. eapply Hstep; eauto.
      * intros [= _ <-]. eapply Hfault; eauto.
    + intros [= _ <-]. now apply Hfin.
Qed.

(** More fuel does not change the outcome of a loop that stopped. *)
Lemma batch_loop_more_fuel (fuel fuel' : nat) (st : Store F) (o : res unit * Store F) :
  (fuel <= fuel')%nat ->
  batch_loop ext fuel st = Some o -> batch_loop ext fuel' st = Some o.
Proof.
  revert fuel' st. induction fuel as [|fuel IH]; intros fuel' st Hle; simpl.
  - destruct (fltb (total_time st) (simulation_time (args st))) eqn:E; [discriminate|].
    intros <-. destruct fuel'; simpl; now rewrite E.
  - destruct fuel' as [|fuel']; [lia|]. simpl.
    destruct (fltb (total_time st) (simulation_time (args st))); [|auto].
    destruct (batch_body ext st) as [[[]|e] st1]; [|auto].
    apply IH. lia.
Qed.

Lemma frame_inv_refl (st0 : Store F) : trace st0 = [] -> frame_inv ext st0 st0.
Proof. intros E. split; try reflexivity. rewrite E. constructor. Qed.

Lemma batch_log_logged (st0 st : Store F) (y0_ : list F) :
  frame_inv ext st0 st -> logged_by ext st0 (batch_log ext st y0_).
Proof.
  intros [Ha _ _ Ht _ _]. unfold logged_by, batch_log. simpl.
  rewrite Ht, Ha. repeat split.
  rewrite <- surjective_pairing.
  apply answer_args. now rewrite Ha.
Qed.

Lemma frame_inv_body (st0 st st' : Store F) (r : res unit) :
  frame_inv ext st0 st -> batch_body ext st = (r, st') -> frame_inv ext st0 st'.
Proof.
  intros Hi. pose proof Hi as [Ha Hc Hn Ht Hs Hl].
  rewrite batch_body_unfold.
  destruct (batch_init st) as [y0_|e]; [|intros [= _ <-]; exact Hi].
  pose proof (batch_log_logged st0 st y0_ Hi) as Hlog.
  assert (Hl' : Forall (logged_by ext st0) (trace st ++ [batch_log ext st y0_])).
  { apply Forall_app. split; [exact Hl|]. now constructor. }
  cbv zeta.
  destruct (log_result (batch_log ext st y0_)) as [[ts ys]|e].
  - destruct (last_row ys) as [row|e].
    + destruct (set_row (y_matrix st) (time_step st) row) as [m|e];
        intros [= _ <-]; unfold after_solve;
        destruct (feqb (total_time st) (float_lit 0 0)); split; assumption.
    + intros [= _ <-]; unfold after_solve;
        destruct (feqb (total_time st) (float_lit 0 0)); split; assumption.
  - intros [= _ <-].
    destruct (feqb (total_time st) (float_lit 0 0)); split; assumption.
Qed.

Lemma frame_inv_loop (st0 : Store F) (fuel : nat) (st st' : Store F) (r : res unit) :
  frame_inv ext st0 st -> batch_loop ext fuel st = Some (r, st') -> frame_inv ext st0 st'.
Proof.
  intros Hi Hl.
  apply (batch_loop_rule (frame_inv ext st0) (frame_inv ext st0)) with (fuel := fuel) (st := st) (r := r);
    eauto using frame_inv_body.
Qed.
End LoopRule.

(** ** Setup *)

Section Setup.
Context {F : Type} `{PyFloat F}.

Lemma dict_get_In {A} (d : list (string * A)) (k : string) (v : A) :
  NoDup (dict_keys d) -> In (k, v) d -> dict_get d k = Ok v.
Proof.
  induction d as [|[k' v'] d IH]; simpl; [tauto|].
  intros Hnd [E|Hin].
  - injection E as -> ->. now rewrite String.eqb_refl.
  - apply NoDup_cons in Hnd as [Hnotin Hnd].
    destruct (String.eqb k' k) eqn:Ek.
    + apply String.eqb_eq in Ek. subst k'. exfalso. apply Hnotin.
      apply list_elem_of_In. unfold dict_keys.
      change k with (fst (k, v)). now apply in_map.
    + now apply IH.
Qed.

Lemma dict_get_key {A} (d : list (string * A)) (k : string) :
  In k (dict_keys d) -> exists v, dict_get d k = Ok v /\ In (k, v) d.
Proof.
  induction d as [|[k' v'] d IH]; simpl; [tauto|].
  intros Hin. destruct (String.eqb k' k) eqn:Ek.
  - apply String.eqb_eq in Ek. subst k'. exists v'. split; [reflexivity | now left].
  - destruct Hin as [E|Hin]; [subst; now rewrite String.eqb_refl in Ek|].
    destruct (IH Hin) as (v & Hv & Hi). exists v. split; [exact Hv | now right].
Qed.

Lemma py_setitem_nonneg {A} (l : list A) (i : Z) (v : A) :
  (0 <= i < Z.of_nat (length l))%Z -> py_setitem l i v = Ok (<[Z.to_nat i := v]> l).
Proof. intros Hi. unfold py_setitem. now rewrite py_index_nonneg. Qed.

Lemma py_setitem_length {A} (l l' : list A) (i : Z) (v : A) :
  py_setitem l i v = Ok l' -> length l' = length l.
Proof.
  unfold py_setitem. destruct (py_index (length l) i); simpl; [|discriminate].
  intros [= <-]. apply length_insert.
Qed.

Lemma populate_y0_length (inp : InputDict F) (C : F) (keys : list string) :
  forall y y', populate_y0 inp C keys y = Ok y' -> length y' = length y.
Proof.
  induction keys as [|s keys IH]; simpl; intros y y'.
  - now intros [= <-].
  - destruct (dict_get _ s) as [c|]; simpl; [|discriminate].
    destruct (gmap_get _ s) as [i|]; simpl; [|discriminate].
    destruct (py_setitem y i (fmul c C)) as [y1|] eqn:E1; simpl; [|discriminate].
    intros E. rewrite (IH _ _ E). eapply py_setitem_length; eauto.
Qed.

(** The loop over the named species, from any vector [y] the positions fit. *)
Lemma populate_y0_spec (inp : InputDict F) (C : F) (keys : list string) :
  index_map_ok inp ->
  NoDup keys ->
  (forall s, In s keys -> In s (dict_keys (species_initial_conc inp))) ->
  (forall s, In s keys -> is_Some (species_dict2array inp !! s)) ->
  forall y, length y = size (species_dict inp) ->
  exists y', populate_y0 inp C keys y = Ok y' /\
    (forall s c i, In s keys -> dict_get (species_initial_conc inp) s = Ok c ->
       species_dict2array inp !! s = Some i ->
       y' !! Z.to_nat i = Some (fmul c C)) /\
    (forall j, (forall s i, In s keys -> species_dict2array inp !! s = Some i ->
                  Z.to_nat i <> j) -> y' !! j = y !! j).
Proof.
  intros [Hinj Hrange]. induction keys as [|s keys IH]; intros Hnd Hnamed Hknown y Hy.
  - exists y. simpl. split; [reflexivity|]. split; [tauto|reflexivity].
  - apply NoDup_cons in Hnd as [Hs Hnd]. rewrite list_elem_of_In in Hs.
    destruct (dict_get_key _ s (Hnamed s (or_introl eq_refl))) as (c & Hc & _).
    destruct (Hknown s (or_introl eq_refl)) as [i Hi].
    pose proof (Hrange s i Hi) as Hir.
    destruct (IH Hnd (fun s' h => Hnamed s' (or_intror h))
                (fun s' h => Hknown s' (or_intror h))
                (<[Z.to_nat i := fmul c C]> y)) as (y' & Hy' & Hset & Hother).
    { now rewrite length_insert. }
    exists y'. simpl. rewrite Hc. simpl. unfold gmap_get. rewrite Hi. simpl.
    rewrite py_setitem_nonneg by lia. simpl. split; [exact Hy'|]. split.
    + intros s' c' i' [<-|Hin] Hc' Hi'.
      * assert (i' = i) by congruence. assert (c' = c) by congruence. subst.
        rewrite Hother.
        -- apply list_lookup_insert_eq. lia.
        -- intros s2 i2 Hin2 Hi2 E.
           pose proof (Hrange s2 i2 Hi2).
           assert (i2 = i) by lia. subst i2.
           apply Hs. now rewrite (Hinj s s2 i Hi Hi2).
      * eapply Hset; eauto.
    + intros j Hj. rewrite Hother.
      * apply list_lookup_insert_ne. eapply Hj; [now left | exact Hi].
      * intros s2 i2 Hin2. apply Hj. now right.
Qed.
End Setup.

Section SetupFacts.
Context {F : Type} `{PyFloat F}.

Lemma setup_initial (a : Args F) (st0 : Store F) :
  setup a = Ok st0 -> initial a st0.
Proof.
  unfold setup.
  destruct (populate_y0 _ _ _ _) as [y|] eqn:Ey; simpl; [|discriminate].
  destruct (fdiv _ _) as [q|] eqn:Eq; simpl; [|discriminate].
  destruct (fint q) as [n|] eqn:En; simpl; [|discriminate].
  unfold numpy_zeros. destruct (n <? 0)%Z eqn:Eneg; simpl; [discriminate|].
  intros [= <-]. apply Z.ltb_ge in Eneg.
  split; simpl; try reflexivity; try assumption.
  - apply populate_y0_length in Ey. now rewrite Ey, repeat_length.
  - now exists q.
Qed.

(** Setup succeeds as soon as the state vector can be filled and the
    number of steps computed. *)
Lemma setup_succeeds (a : Args F) (y : list F) (q : F) (n : Z) :
  initial_y0 a = Ok y ->
  fdiv (simulation_time a) (batch_step a) = Ok q ->
  fint q = Ok n -> (0 <= n)%Z ->
  exists st0, setup a = Ok st0.
Proof.
  intros Ey Eq En Hn. unfold setup. unfold initial_y0 in Ey.
  rewrite Ey. simpl. rewrite Eq. simpl. rewrite En. simpl.
  unfold numpy_zeros. apply Z.ltb_ge in Hn. rewrite Hn. simpl. eauto.
Qed.

Lemma setup_ignores_RO2_indices (a : Args F) (ro2 : list Z) :
  setup (with_RO2_indices ro2 a) =
  match setup a with
  | Ok st0 => Ok (with_args (with_RO2_indices ro2 a) st0)
  | Raise e => Raise e
  end.
Proof.
  unfold setup. simpl.
  destruct (populate_y0 _ _ _ _) as [y|]; simpl; [|reflexivity].
  destruct (fdiv _ _) as [q|]; simpl; [|reflexivity].
  destruct (fint q) as [n|]; simpl; [|reflexivity].
  destruct (numpy_zeros n (length y)); reflexivity.
Qed.

(** C9.  With a one-to-one species-to-position mapping that stays inside
    the state vector, and the species given a concentration known to it,
    the initial state vector is built without error, has as many entries
    as there are species, holds for every species named in
    [species_initial_conc] its concentration times 2.55e10 at its mapped
    position, and holds 0 at the position of every species not named; it
    is the [y0] of the store setup returns. *)
Theorem initial_state_spec (a : Args F) :
  index_map_ok (input_dict a) ->
  conc_ok (input_dict a) ->
  exists y,
    initial_y0 a = Ok y /\
    (forall st0, setup a = Ok st0 -> y0 st0 = y) /\
    length y = size (species_dict (input_dict a)) /\
    (forall specie c i,
        In (specie, c) (species_initial_conc (input_dict a)) ->
        species_dict2array (input_dict a) !! specie = Some i ->
        y !! Z.to_nat i = Some (fmul c (float_lit 255 8))) /\
    (forall specie i,
        species_dict2array (input_dict a) !! specie = Some i ->
        ~ In specie (dict_keys (species_initial_conc (input_dict a))) ->
        y !! Z.to_nat i = Some (float_lit 0 0)).
Proof.
  intros Hmap [Hnd Hknown].
  destruct (populate_y0_spec (input_dict a) (float_lit 255 8)
              (dict_keys (species_initial_conc (input_dict a))) Hmap Hnd
              (fun s h => h) Hknown
              (repeat (float_lit 0 0) (size (species_dict (input_dict a)))))
    as (y & Hy & Hset & Hother).
  { apply repeat_length. }
  exists y. split; [exact Hy|]. split; [|split; [|split]].
  - intros st0 Hst0. apply setup_initial in Hst0.
    pose proof (init_y0 _ _ Hst0) as E. unfold initial_y0 in E. congruence.
  - apply populate_y0_length in Hy. now rewrite Hy, repeat_length.
  - intros specie c i Hin Hi. eapply Hset; eauto.
    + unfold dict_keys. change specie with (fst (specie, c)). now apply in_map.
    + now apply dict_get_In.
  - intros specie i Hi Hnot. rewrite Hother.
    + destruct Hmap as [Hinj Hrange]. pose proof (Hrange specie i Hi).
      apply lookup_repeat. lia.
    + intros s2 i2 Hin2 Hi2 E. destruct Hmap as [Hinj Hrange].
      pose proof (Hrange specie i Hi). pose proof (Hrange s2 i2 Hi2).
      assert (i2 = i) by lia. subst i2.
      apply Hnot. now rewrite (Hinj specie s2 i Hi Hi2).
Qed.
End SetupFacts.

(** ** State carry-over *)

Section Rows.
Context {F : Type}.

Lemma set_row_same_shape (m m' : list (list F)) (k n : nat) (row : list F) :
  Forall (fun r => length r = n) m -> length row = n ->
  set_row m (Z.of_nat k) row = Ok m' ->
  (k < length m)%nat /\ m' = <[k := row]> m.
Proof.
  intros Hm Hrow. unfold set_row.
  destruct (py_index (length m) (Z.of_nat k)) as [j|] eqn:Ej; simpl; [|discriminate].
  assert (Hk : (k < length m)%nat).
  { unfold py_index in Ej.
    destruct ((0 <=? Z.of_nat k)%Z && (Z.of_nat k <? Z.of_nat (length m))%Z) eqn:E1.
    - apply andb_true_iff in E1 as [_ E1]. apply Z.ltb_lt in E1. lia.
    - destruct ((- Z.of_nat (length m) <=? Z.of_nat k)%Z && (Z.of_nat k <? 0)%Z) eqn:E2;
        [|discriminate].
      apply andb_true_iff in E2 as [_ E2]. apply Z.ltb_lt in E2. lia. }
  rewrite py_index_of_nat in Ej by exact Hk. injection Ej as <-.
  destruct (m !! k) as [old|] eqn:Eold; [|discriminate].
  assert (Hold : length old = n).
  { rewrite Forall_forall in Hm. apply Hm.
    eapply list_elem_of_lookup_2; eauto. }
  assert (E : Nat.eqb (length row) (length old) = true)
    by (apply Nat.eqb_eq; congruence).
  rewrite E. intros [= <-]. now split.
Qed.

Lemma set_row_past_end (m : list (list F)) (i : Z) (row : list F) :
  (Z.of_nat (length m) <= i)%Z -> set_row m i row = Raise IndexError.
Proof. intros Hi. unfold set_row. now rewrite py_index_past_end. Qed.

Lemma set_row_in_range (m : list (list F)) (k n : nat) (row : list F) :
  Forall (fun r => length r = n) m -> length row = n -> (k < length m)%nat ->
  set_row m (Z.of_nat k) row = Ok (<[k := row]> m).
Proof.
  intros Hm Hrow Hk. unfold set_row. rewrite py_index_of_nat by exact Hk. simpl.
  destruct (m !! k) as [old|] eqn:Eold.
  - assert (Hold : length old = n).
    { rewrite Forall_forall in Hm. apply Hm.
      eapply list_elem_of_lookup_2; eauto. }
    assert (E : Nat.eqb (length row) (length old) = true)
      by (apply Nat.eqb_eq; congruence).
    now rewrite E.
  - apply lookup_ge_None in Eold. lia.
Qed.
End Rows.

Section CarryProofs.
Context {F : Type} `{PyFloat F}.
Variable ext : Externals F.

Lemma elapsed_S (b : F) (k : nat) : elapsed b (S k) = fadd (elapsed b k) b.
Proof. reflexivity. Qed.

Lemma chain_snoc (init : list F) (tr : list (BatchLog F)) (L : BatchLog F) :
  (forall k log, tr !! k = Some log ->
     next_start init (take k tr) = Some (log_start log)) ->
  next_start init tr = Some (log_start L) ->
  forall k log, (tr ++ [L]) !! k = Some log ->
    next_start init (take k (tr ++ [L])) = Some (log_start log).
Proof.
  intros Hold Hnew k log Hk.
  destruct (Nat.lt_ge_cases k (length tr)) as [Hlt|Hge].
  - rewrite lookup_app_l in Hk by exact Hlt.
    rewrite take_app_le by lia. now apply Hold.
  - rewrite lookup_app_r in Hk by exact Hge.
    destruct (k - length tr)%nat as [|j] eqn:Ej; simpl in Hk; [|discriminate].
    injection Hk as <-. assert (k = length tr) by lia. subst k.
    now rewrite take_app_length.
Qed.

Lemma after_solve_trace (st : Store F) (y : list F) (ys : list (list F)) :
  trace (after_solve ext st y ys) = trace st ++ [batch_log ext st y].
Proof. unfold after_solve. destruct (feqb _ _); reflexivity. Qed.

Lemma after_solve_fields (st : Store F) (y : list F) (ys : list (list F)) :
  time_step (after_solve ext st y ys) = time_step st /\
  y_matrix (after_solve ext st y ys) = y_matrix st /\
  y_output (after_solve ext st y ys) = Some ys /\
  total_time (after_solve ext st y ys) = fadd (total_time st) (batch_step (args st)) /\
  t_array (after_solve ext st y ys) =
    t_array st ++ [fadd (total_time st) (batch_step (args st))].
Proof. unfold after_solve. destruct (feqb _ _); repeat split. Qed.

Lemma log_start_batch_log (st : Store F) (y : list F) :
  log_start (batch_log ext st y) = y.
Proof. reflexivity. Qed.

Lemma times_snoc (b : F) (k : nat) :
  map (elapsed b) (seq 1 k) ++ [fadd (elapsed b k) b] = map (elapsed b) (seq 1 (S k)).
Proof. rewrite seq_S, map_app. reflexivity. Qed.

(** The log and the rows once a batch has been logged on top of a store at
    the head of the loop. *)
Lemma final_inv_logged (st0 st st' : Store F) (x : list F) :
  head_inv ext st0 st ->
  batch_init st = Ok x ->
  frame_inv ext st0 st' ->
  trace st' = trace st ++ [batch_log ext st x] ->
  time_step st' = time_step st ->
  y_matrix st' = y_matrix st ->
  (total_time st' = total_time st /\ t_array st' = t_array st \/
   total_time st' = fadd (total_time st) (batch_step (args st)) /\
   t_array st' = t_array st ++ [fadd (total_time st) (batch_step (args st))]) ->
  final_inv ext st0 st'.
Proof.
  intros [Hfin Hstep Hcount (x' & Hx' & Hnext & Hlen)] Hx Hframe Htr Hts Hm Htimes.
  assert (x' = x) by congruence. subst x'.
  destruct Hfin as [Hfr Hst Htot Harr Hchain Hrows Hshape Hheight].
  split.
  - exact Hframe.
  - rewrite Htr, Hts, Hstep, length_app. simpl. lia.
  - destruct Htimes as [[-> ->]|[-> ->]]; [exact Htot|].
    rewrite length_app, Nat.add_1_r, elapsed_S. simpl.
    rewrite Htot. now rewrite (fi_args _ _ _ Hfr).
  - destruct Htimes as [[_ ->]|[_ ->]]; [exact Harr|].
    rewrite length_app, Nat.add_1_r. simpl length.
    rewrite <- times_snoc, <- Harr. do 2 f_equal.
    rewrite Htot. now rewrite (fi_args _ _ _ Hfr).
  - rewrite Htr. apply chain_snoc; [exact Hchain|].
    now rewrite log_start_batch_log.
  - intros k log Hk Hlt. rewrite Htr in Hk. rewrite Hts, Hstep in Hlt.
    rewrite lookup_app_l in Hk by lia. rewrite Hm. apply Hrows; [exact Hk|].
    rewrite Hstep. exact Hlt.
  - now rewrite Hm.
  - now rewrite Hm.
Qed.
End CarryProofs.

Section CarryLoop.
Context {F : Type} `{PyFloat F}.
Variable ext : Externals F.
Variable a : Args F.
Variable st0 : Store F.
Hypothesis Hinit : initial a st0.
Hypothesis Hzero : feqb (float_lit 0 0) (float_lit 0 0) = true.
Hypothesis Hshape : keeps_shape ext a (length (y0 st0)).

Lemma head_inv_initial : head_inv ext st0 st0.
Proof.
  destruct Hinit as [Ha Hc Hn Hy Hyl Ht Htot Harr Hts Hout Htr Hsteps Hnn Hm].
  assert (Hb : batch_init st0 = Ok (y0 st0)).
  { unfold batch_init. rewrite Htot. now rewrite Hzero. }
  split.
  - split.
    + now apply frame_inv_refl.
    + rewrite Htr, Hts. simpl. lia.
    + now rewrite Harr, Htot.
    + now rewrite Harr.
    + intros k log. rewrite Htr. now rewrite lookup_nil.
    + intros k log. rewrite Htr. now rewrite lookup_nil.
    + rewrite Hm. apply Forall_forall. intros r Hr.
      apply list_elem_of_In, repeat_spec in Hr. subst r. apply repeat_length.
    + reflexivity.
  - now rewrite Htr, Hts.
  - now rewrite Htr, Harr.
  - exists (y0 st0). rewrite Htr. repeat split. exact Hb.
Qed.

Lemma head_inv_row_length (st : Store F) (x : list F) (ts : list F)
    (ys : list (list F)) (row : list F) :
  head_inv ext st0 st -> batch_init st = Ok x ->
  log_result (batch_log ext st x) = Ok (ts, ys) -> last_row ys = Ok row ->
  length row = length (y0 st0).
Proof.
  intros [Hfin _ _ (x' & Hx' & _ & Hlen)] Hx Hres Hrow.
  assert (x' = x) by congruence. subst x'.
  apply (Hshape (batch_sim st x) (batch_step (args st)) st ts ys row).
  - rewrite (fi_args _ _ _ (fin_frame _ _ _ Hfin)). apply (init_args _ _ Hinit).
  - exact Hlen.
  - exact Hres.
  - exact Hrow.
Qed.

Lemma head_inv_fault (st st' : Store F) (e : exn) :
  head_inv ext st0 st -> batch_body ext st = (Raise e, st') -> final_inv ext st0 st'.
Proof.
  intros Hhd Hbody.
  pose proof (frame_inv_body ext st0 st st' (Raise e)
                (fin_frame _ _ _ (hd_final _ _ _ Hhd)) Hbody) as Hframe.
  destruct (hd_next _ _ _ Hhd) as (x & Hx & _ & _).
  rewrite batch_body_unfold, Hx in Hbody. cbv zeta in Hbody.
  destruct (log_result (batch_log ext st x)) as [[ts ys]|e1] eqn:Eres.
  - destruct (after_solve_fields ext st x ys) as (Hts & Hm & _ & Htot & Harr).
    assert (Hst' : st' = after_solve ext st x ys).
    { destruct (last_row ys) as [row|e2].
      - destruct (set_row _ _ row) as [m|e3]; [discriminate|]. congruence.
      - congruence. }
    subst st'. apply (final_inv_logged ext st0 st _ x Hhd Hx Hframe).
    + apply after_solve_trace.
    + exact Hts.
    + exact Hm.
    + right. now split.
  - injection Hbody as _ <-.
    apply (final_inv_logged ext st0 st _ x Hhd Hx Hframe).
    + destruct (feqb (total_time st) (float_lit 0 0)); reflexivity.
    + destruct (feqb (total_time st) (float_lit 0 0)); reflexivity.
    + destruct (feqb (total_time st) (float_lit 0 0)); reflexivity.
    + left. destruct (feqb (total_time st) (float_lit 0 0)); now split.
Qed.

Lemma head_inv_step (st st' : Store F) :
  head_inv ext st0 st ->
  feqb (elapsed (batch_step a) (S (length (trace st)))) (float_lit 0 0) = false ->
  batch_body ext st = (Ok tt, st') -> head_inv ext st0 st'.
Proof.
  intros Hhd Hnz Hbody.
  pose proof (frame_inv_body ext st0 st st' (Ok tt)
                (fin_frame _ _ _ (hd_final _ _ _ Hhd)) Hbody) as Hframe.
  destruct (hd_next _ _ _ Hhd) as (x & Hx & Hnext & Hlen).
  rewrite batch_body_unfold, Hx in Hbody. cbv zeta in Hbody.
  destruct (log_result (batch_log ext st x)) as [[ts ys]|e1] eqn:Eres; [|discriminate].
  destruct (last_row ys) as [row|e2] eqn:Erow; [|discriminate].
  destruct (set_row (y_matrix st) (time_step st) row) as [m|e3] eqn:Eset; [|discriminate].
  injection Hbody as <-.
  pose proof (head_inv_row_length st x ts ys row Hhd Hx Eres Erow) as Hrl.
  destruct (after_solve_fields ext st x ys) as (Hts & Hm & Hout & Htot & Harr).
  pose proof (after_solve_trace ext st x ys) as Htr.
  assert (Hmid : final_inv ext st0 (after_solve ext st x ys)).
  { apply (final_inv_logged ext st0 st _ x Hhd Hx); auto.
    destruct Hframe. split; assumption. }
  pose proof (hd_step _ _ _ Hhd) as Hstep.
  pose proof (hd_count _ _ _ Hhd) as Hcount.
  pose proof (hd_final _ _ _ Hhd) as Hfin.
  rewrite Hstep in Eset.
  destruct (set_row_same_shape _ _ _ _ _ (fin_shape _ _ _ Hfin) Hrl Eset) as [Hk ->].
  assert (Hlast : log_last (batch_log ext st x) = Some row).
  { unfold log_last. now rewrite Eres, Erow. }
  set (mid := after_solve ext st x ys) in *. clearbody mid.
  split.
  - split; simpl.
    + exact Hframe.
    + rewrite Htr, length_app, Hstep. simpl. lia.
    + exact (fin_total _ _ _ Hmid).
    + exact (fin_t_array _ _ _ Hmid).
    + exact (fin_chain _ _ _ Hmid).
    + intros k log Hk' Hlt. rewrite Htr in Hk'. rewrite Hstep in Hlt.
      destruct (Nat.eq_dec k (length (trace st))) as [->|Hne].
      * rewrite lookup_app_r in Hk' by lia. rewrite Nat.sub_diag in Hk'.
        injection Hk' as <-. exists row. split; [exact Hlast|].
        now apply list_lookup_insert_eq.
      * rewrite lookup_app_l in Hk' by lia.
        destruct (fin_rows _ _ _ Hfin k log Hk') as (r & Hr1 & Hr2); [lia|].
        exists r. split; [exact Hr1|].
        rewrite list_lookup_insert_ne by lia. exact Hr2.
    + apply Forall_insert; [exact (fin_shape _ _ _ Hfin) | exact Hrl].
    + rewrite length_insert. exact (fin_height _ _ _ Hfin).
  - simpl. rewrite Htr, length_app, Hstep. simpl. lia.
  - simpl. rewrite Harr, Htr, !length_app, Hcount. reflexivity.
  - exists row. split; [|split].
    + unfold batch_init. simpl. rewrite Htot, Hout.
      rewrite (fin_total _ _ _ Hfin), (fi_args _ _ _ (fin_frame _ _ _ Hfin)).
      rewrite <- elapsed_S, Hcount.
      rewrite (init_args _ _ Hinit). now rewrite Hnz.
    + simpl. rewrite Htr. unfold next_start. now rewrite last_snoc.
    + exact Hrl.
Qed.

(** Wherever the loop stops, the log, the rows and the times are as the
    batches left them. *)
Lemma loop_final_inv (fuel : nat) (r : res unit) (st : Store F) :
  (forall k, feqb (elapsed (batch_step a) (S k)) (float_lit 0 0) = false) ->
  batch_loop ext fuel st0 = Some (r, st) -> final_inv ext st0 st.
Proof.
  intros Hnz.
  apply (batch_loop_rule ext (head_inv ext st0) (final_inv ext st0)).
  - intros s Hs. exact (hd_final _ _ _ Hs).
  - intros s s' Hs. apply head_inv_step; [exact Hs | apply Hnz].
  - intros s s' e. apply head_inv_fault.
  - apply head_inv_initial.
Qed.
End CarryLoop.

(** ** Counting the iterations *)

Section Unroll.
Context {F : Type} `{PyFloat F}.
Variable ext : Externals F.

Lemma succeeds_keeps_shape (a : Args F) (n : nat) :
  solver_succeeds ext a n -> keeps_shape ext a n.
Proof.
  intros Hs sim tf st ts ys row Ha Hn Hres Hrow.
  destruct (Hs sim tf st Ha Hn) as (ts' & ys' & row' & Hres' & Hrow' & Hlen).
  congruence.
Qed.

Variable a : Args F.
Variable st0 : Store F.
Variable n : nat.
Hypothesis Hinit : initial a st0.
Hypothesis Hzero : zero_only_at_start (batch_step a) n.
Hypothesis Hsolver : solver_succeeds ext a (length (y0 st0)).

(** One more batch from the head of the loop: it is recorded if a row is
    left for it, and raises [IndexError] at the row write otherwise. *)
Lemma head_progress (st : Store F) :
  head_inv ext st0 st -> (length (trace st) < n)%nat ->
  exists r st', batch_body ext st = (r, st') /\
    (((length (trace st) < length (y_matrix st0))%nat /\ r = Ok tt /\
      head_inv ext st0 st' /\ length (trace st') = S (length (trace st))) \/
     ((length (y_matrix st0) <= length (trace st))%nat /\ r = Raise IndexError /\
      final_inv ext st0 st' /\ time_step st' = Z.of_nat (length (trace st)) /\
      length (trace st') = S (length (trace st)) /\
      length (t_array st') = S (length (trace st)))).
Proof.
  intros Hhd Hbound.
  pose proof (succeeds_keeps_shape a _ Hsolver) as Hshape.
  destruct (hd_next _ _ _ Hhd) as (x & Hx & Hnext & Hlen).
  pose proof (hd_final _ _ _ Hhd) as Hfin.
  assert (Ha : args st = a).
  { rewrite (fi_args _ _ _ (fin_frame _ _ _ Hfin)). apply (init_args _ _ Hinit). }
  destruct (Hsolver (batch_sim st x) (batch_step (args st)) st Ha Hlen)
    as (ts & ys & row & Hres & Hrow & Hrl).
  change (log_result (batch_log ext st x) = Ok (ts, ys)) in Hres.
  pose proof (batch_body_unfold ext st) as Hbody.
  rewrite Hx in Hbody. cbv zeta in Hbody. rewrite Hres, Hrow in Hbody.
  rewrite (hd_step _ _ _ Hhd) in Hbody.
  destruct (Nat.lt_ge_cases (length (trace st)) (length (y_matrix st0))) as [Hlt|Hge].
  - rewrite (set_row_in_range _ _ (length (y0 st0))) in Hbody;
      [| exact (fin_shape _ _ _ Hfin) | exact Hrl
       | now rewrite (fin_height _ _ _ Hfin)].
    eexists _, _. split; [exact Hbody|]. left.
    split; [exact Hlt|]. split; [reflexivity|]. split.
    + apply (head_inv_step ext a st0 Hinit Hshape st _ Hhd);
        [apply (proj2 Hzero); exact Hbound | exact Hbody].
    + change (length (trace (after_solve ext st x ys)) = S (length (trace st))).
      rewrite after_solve_trace, length_app. simpl. lia.
  - rewrite set_row_past_end in Hbody
      by (rewrite (fin_height _ _ _ Hfin); lia).
    eexists _, _. split; [exact Hbody|]. right.
    destruct (after_solve_fields ext st x ys) as (Hts & _ & _ & _ & Harr).
    split; [exact Hge|]. split; [reflexivity|]. split; [|split; [|split]].
    + apply (head_inv_fault ext st0 st _ _ Hhd Hbody).
    + rewrite Hts. apply (hd_step _ _ _ Hhd).
    + rewrite after_solve_trace, length_app. simpl. lia.
    + rewrite Harr, length_app, (hd_count _ _ _ Hhd). simpl. lia.
Qed.

Lemma head_test (st : Store F) :
  head_inv ext st0 st ->
  fltb (total_time st) (simulation_time (args st)) =
  fltb (elapsed (batch_step a) (length (trace st))) (simulation_time a).
Proof.
  intros Hhd. pose proof (hd_final _ _ _ Hhd) as Hfin.
  rewrite (fin_total _ _ _ Hfin), (hd_count _ _ _ Hhd).
  rewrite (fi_args _ _ _ (fin_frame _ _ _ Hfin)).
  now rewrite (init_args _ _ Hinit).
Qed.

(** Enough rows: the loop stops normally after [n] batches. *)
Lemma loop_completes :
  loop_runs a n -> (n <= length (y_matrix st0))%nat ->
  forall d st fuel,
    head_inv ext st0 st -> (length (trace st) + d = n)%nat -> (d <= fuel)%nat ->
    exists st', batch_loop ext fuel st = Some (Ok tt, st') /\
                head_inv ext st0 st' /\ length (trace st') = n.
Proof.
  intros [Hbefore Hat] Hrows.
  induction d as [|d IH]; intros st fuel Hhd Hk Hfuel.
  - exists st. rewrite Nat.add_0_r in Hk. split; [|now split].
    destruct fuel; simpl; rewrite (head_test st Hhd), Hk, Hat; reflexivity.
  - destruct fuel as [|fuel]; [lia|]. simpl.
    rewrite (head_test st Hhd), Hbefore by lia.
    destruct (head_progress st Hhd) as (r & st1 & Hbody & [(_ & -> & Hhd1 & Hlen)|(Hge & _)]);
      [lia| |lia].
    rewrite Hbody. apply IH; [exact Hhd1 | lia | lia].
Qed.

(** One row short: the loop raises [IndexError] at the write that follows
    the last row. *)
Lemma loop_overruns :
  loop_runs a n -> (length (y_matrix st0) < n)%nat ->
  forall d st fuel,
    head_inv ext st0 st -> (length (trace st) + d = length (y_matrix st0))%nat ->
    (d < fuel)%nat ->
    exists st', batch_loop ext fuel st = Some (Raise IndexError, st') /\
                final_inv ext st0 st' /\
                time_step st' = Z.of_nat (length (y_matrix st0)) /\
                length (trace st') = S (length (y_matrix st0)) /\
                length (t_array st') = S (length (y_matrix st0)).
Proof.
  intros [Hbefore Hat] Hrows.
  induction d as [|d IH]; intros st fuel Hhd Hk Hfuel.
  - rewrite Nat.add_0_r in Hk.
    destruct fuel as [|fuel]; [lia|]. simpl.
    rewrite (head_test st Hhd), Hbefore by lia.
    destruct (head_progress st Hhd)
      as (r & st1 & Hbody & [(Hlt & _)|(_ & -> & Hfin & Hts & Htr & Harr)]); [lia|lia|].
    rewrite Hbody. exists st1. rewrite <- Hk.
    split; [reflexivity|]. split; [exact Hfin|]. split; [exact Hts|].
    split; [exact Htr | exact Harr].
  - destruct fuel as [|fuel]; [lia|]. simpl.
    rewrite (head_test st Hhd), Hbefore by lia.
    destruct (head_progress st Hhd) as (r & st1 & Hbody & [(_ & -> & Hhd1 & Hlen)|(Hge & _)]);
      [lia| |lia].
    rewrite Hbody. apply IH; [exact Hhd1 | lia | lia].
Qed.
End Unroll.

(** ** Exact arithmetic *)

Section Exact.
Local Open Scope Q_scope.

Lemma Q_elapsed (b : Q) (k : nat) :
  elapsed b k == inject_Z (Z.of_nat k) * b.
Proof.
  induction k as [|k IH].
  - change (0 == 0 * b). ring.
  - rewrite elapsed_S. simpl fadd. rewrite IH.
    rewrite Nat2Z.inj_succ. unfold Z.succ. rewrite inject_Z_plus. ring.
Qed.

Lemma Q_zero_only_at_start (b : Q) (n : nat) :
  ~ b == 0 -> zero_only_at_start b n.
Proof.
  intros Hb. split; [reflexivity|]. intros k _.
  change (Qeq_bool (elapsed b (S k)) 0 = false).
  apply not_true_is_false. intros E.
  apply Qeq_bool_eq in E. rewrite Q_elapsed in E.
  apply Qmult_integral in E. destruct E as [E|E]; [|now apply Hb].
  unfold Qeq in E. simpl in E. lia.
Qed.

End Exact.

(** ** The test double meets the solver contract *)

Section TestDoubleFacts.
Context {F : Type} `{PyFloat F}.
Variable k : F.

Lemma euler_step_length (h : F) (y dydt : list F) :
  length y = length dydt -> length (euler_step h y dydt) = length y.
Proof.
  revert dydt. induction y as [|x y IH]; intros [|d dydt]; simpl; try discriminate.
  - reflexivity.
  - intros [= E]. now rewrite IH.
Qed.

Lemma euler_answer (a : Args F) (sim : CVodeSim F) (tf : F) (st : Store F) (y1 y2 : F) :
  args st = a ->
  Forall (fun i => 0 <= i < 2)%Z (RO2_indices a) ->
  prob_y0 (problem sim) = [y1; y2] ->
  let t := prob_t0 (problem sim) in
  fst (answer (ab_ext k) (simulate (ab_ext k) sim tf) [] st) =
    ([CallJac t [y1; y2]; CallRhs t [y1; y2]],
     Ok ([t; tf], [[y1; y2];
                   euler_step tf [y1; y2]
                     [fmul (float_lit (-1) 0) (fmul y1 k); fmul y1 k]])).
Proof.
  intros Ha Hro Hy t. simpl. unfold euler_simulate. fold t. rewrite Hy. simpl.
  rewrite jacobian_unfold. unfold peroxy_sum. rewrite Ha.
  rewrite (numpy_take_nonneg [y1; y2] _ (float_lit 0 0)) by exact Hro.
  simpl. rewrite dydt_func_unfold. unfold peroxy_sum. rewrite Ha.
  rewrite (numpy_take_nonneg [y1; y2] _ (float_lit 0 0)) by exact Hro.
  reflexivity.
Qed.

Lemma ab_index_lookup (c : F) (s : string) (i : Z) :
  species_dict2array (ab_input c) !! s = Some i ->
  (s = "A"%string /\ i = 0%Z) \/ (s = "B"%string /\ i = 1%Z).
Proof.
  unfold ab_input. cbn [species_dict2array]. intros Hs.
  apply lookup_insert_Some in Hs as [[<- <-]|[_ Hs]]; [now left|].
  apply lookup_singleton_Some in Hs as [<- <-]. now right.
Qed.

Lemma ab_index_map_ok (c : F) : index_map_ok (ab_input c).
Proof.
  split.
  - intros s1 s2 i H1 H2.
    apply ab_index_lookup in H1 as [[-> ->]|[-> ->]];
      apply ab_index_lookup in H2 as [[-> E]|[-> E]]; try reflexivity; discriminate.
  - intros s i Hs.
    assert (Hsize : size (species_dict (ab_input c)) = 2%nat) by reflexivity.
    rewrite Hsize. apply ab_index_lookup in Hs as [[_ ->]|[_ ->]]; lia.
Qed.

Lemma ab_conc_ok (c : F) : conc_ok (ab_input c).
Proof.
  split.
  - simpl. repeat constructor. intros Hin. now apply elem_of_nil in Hin.
  - intros s [<-|[]]. unfold ab_input. cbn [species_dict2array].
    rewrite lookup_insert_eq. eauto.
Qed.

Lemma euler_succeeds (a : Args F) :
  Forall (fun i => 0 <= i < 2)%Z (RO2_indices a) ->
  solver_succeeds (ab_ext k) a 2.
Proof.
  intros Hro sim tf st Ha Hlen.
  destruct (prob_y0 (problem sim)) as [|y1 [|y2 [|y3 rest]]] eqn:Hy; try discriminate.
  rewrite (euler_answer a sim tf st y1 y2 Ha Hro Hy). simpl.
  eexists _, _, _. split; [reflexivity|]. split; reflexivity.
Qed.
End TestDoubleFacts.

(** ** The solver's calls stay in the batch interval *)

Section Span.
Context {F : Type} `{PyFloat F}.
Variable le : F -> F -> Prop.
Variable ext : Externals F.

Lemma answer_calls_within (lo hi : F) (p : solver_run F) :
  calls_within le lo hi p ->
  forall calls st, Forall (time_within le lo hi) calls ->
    Forall (time_within le lo hi) (fst (fst (answer ext p calls st))).
Proof.
  induction p as [r | t y k IH | t y k IH]; simpl; intros Hp calls st Hcalls.
  - exact Hcalls.
  - destruct Hp as (Hlo & Hhi & Hk). rewrite dydt_func_unfold.
    apply IH; [apply Hk|]. apply Forall_app. split; [exact Hcalls|].
    constructor; [now split | constructor].
  - destruct Hp as (Hlo & Hhi & Hk). rewrite jacobian_unfold.
    apply IH; [apply Hk|]. apply Forall_app. split; [exact Hcalls|].
    constructor; [now split | constructor].
Qed.

Lemma logged_calls_within (st0 : Store F) (log : BatchLog F) :
  stays_in_span le ext -> logged_by ext st0 log ->
  le (t0 st0) (batch_step (args st0)) ->
  Forall (time_within le (t0 st0) (batch_step (args st0))) (log_calls log).
Proof.
  intros Hspan (Ht0 & Htf & Hans) Hle.
  replace (log_calls log) with
    (fst (fst (answer ext (simulate ext (log_sim log) (log_tfinal log)) [] st0)))
    by now rewrite <- Hans.
  rewrite <- Ht0, <- Htf. apply answer_calls_within; [|constructor].
  apply Hspan. now rewrite Ht0, Htf.
Qed.
End Span.

(** ** Deciding the loop tests on concrete times *)

Section Decide.
Context {F : Type} `{PyFloat F}.

Lemma loop_runs_b_sound (a : Args F) (n : nat) :
  loop_runs_b a n = true -> loop_runs a n.
Proof.
  unfold loop_runs_b. intros E. apply andb_true_iff in E as [E1 E2].
  split.
  - intros k Hk. rewrite forallb_forall in E1. apply E1. apply in_seq. lia.
  - now apply negb_true_iff.
Qed.

Lemma zero_only_at_start_b_sound (b : F) (n : nat) :
  zero_only_at_start_b b n = true -> zero_only_at_start b n.
Proof.
  unfold zero_only_at_start_b. intros E. apply andb_true_iff in E as [E1 E2].
  split; [exact E1|]. intros k Hk. rewrite forallb_forall in E2.
  apply negb_true_iff. apply E2. apply in_seq. lia.
Qed.
End Decide.

(** ** Whole runs *)

Section Runs.
Context {F : Type} `{PyFloat F}.
Variable ext : Externals F.

Lemma run_stopped (fuel : nat) (a : Args F) (r : res unit) (st : Store F) :
  run_simulation ext fuel a = Some (Stopped r st) ->
  exists st0, setup a = Ok st0 /\ batch_loop ext fuel st0 = Some (r, st).
Proof.
  unfold run_simulation. destruct (setup a) as [st0|e]; [|discriminate].
  destruct (batch_loop ext fuel st0) as [[r' st']|] eqn:E; [|discriminate].
  intros [= <- <-]. now exists st0.
Qed.

Lemma run_frame (fuel : nat) (a : Args F) (r : res unit) (st st0 : Store F) :
  setup a = Ok st0 -> batch_loop ext fuel st0 = Some (r, st) -> frame_inv ext st0 st.
Proof.
  intros Hs Hl. apply setup_initial in Hs.
  eapply frame_inv_loop; [|exact Hl].
  apply frame_inv_refl. exact (init_trace _ _ Hs).
Qed.

Lemma batch_body_args (st : Store F) : args (snd (batch_body ext st)) = args st.
Proof.
  rewrite batch_body_unfold.
  destruct (batch_init st) as [x|e]; [|reflexivity]. cbv zeta.
  destruct (log_result (batch_log ext st x)) as [[ts ys]|e].
  - destruct (last_row ys) as [row|e].
    + destruct (set_row (y_matrix st) (time_step st) row) as [m|e];
        unfold after_solve; destruct (feqb (total_time st) (float_lit 0 0)); reflexivity.
    + unfold after_solve; destruct (feqb (total_time st) (float_lit 0 0)); reflexivity.
  - destruct (feqb (total_time st) (float_lit 0 0)); reflexivity.
Qed.

(** The outcome of a run whose solver invocations all succeed, from the
    number [n] of times the loop test holds. *)
Lemma run_counts (a : Args F) (st0 : Store F) (n : nat) :
  setup a = Ok st0 ->
  zero_only_at_start (batch_step a) n ->
  solver_succeeds ext a (length (y0 st0)) ->
  loop_runs a n ->
  ((n <= length (y_matrix st0))%nat -> forall fuel, (n <= fuel)%nat ->
     exists st, run_simulation ext fuel a = Some (Stopped (Ok tt) st) /\
       final_inv ext st0 st /\ length (trace st) = n /\
       time_step st = Z.of_nat n /\ length (t_array st) = n) /\
  ((length (y_matrix st0) < n)%nat -> forall fuel, (length (y_matrix st0) < fuel)%nat ->
     exists st, run_simulation ext fuel a = Some (Stopped (Raise IndexError) st) /\
       final_inv ext st0 st /\ length (trace st) = S (length (y_matrix st0)) /\
       time_step st = Z.of_nat (length (y_matrix st0)) /\
       length (t_array st) = S (length (y_matrix st0))).
Proof.
  intros Hsetup Hzero Hsolver Hruns.
  pose proof (setup_initial a st0 Hsetup) as Hinit.
  pose proof (head_inv_initial ext a st0 Hinit (proj1 Hzero)) as Hhd0.
  split.
  - intros Hrows fuel Hfuel.
    destruct (loop_completes ext a st0 n Hinit Hzero Hsolver Hruns Hrows n st0 fuel Hhd0)
      as (st & Hloop & Hhd & Hlen).
    { rewrite (init_trace _ _ Hinit). reflexivity. }
    { exact Hfuel. }
    exists st. unfold run_simulation. rewrite Hsetup, Hloop.
    split; [reflexivity|]. split; [exact (hd_final _ _ _ Hhd)|].
    split; [exact Hlen|]. split.
    + rewrite (hd_step _ _ _ Hhd). now rewrite Hlen.
    + rewrite (hd_count _ _ _ Hhd). exact Hlen.
  - intros Hrows fuel Hfuel.
    destruct (loop_overruns ext a st0 n Hinit Hzero Hsolver Hruns Hrows
                (length (y_matrix st0)) st0 fuel Hhd0)
      as (st & Hloop & Hfin & Hts & Htr & Harr).
    { rewrite (init_trace _ _ Hinit). reflexivity. }
    { exact Hfuel. }
    exists st. unfold run_simulation. rewrite Hsetup, Hloop.
    split; [reflexivity|]. split; [exact Hfin|]. split; [exact Htr|].
    split; [exact Hts | exact Harr].
Qed.
End Runs.

(** ** Properties of the controller *)

(** C10.  Whatever the solver and the kernels do, a run leaves the
    arguments of [run_simulation] (with [input_dict] and everything
    unpacked from it, [temp], [H2O], [RH] and [RO2_indices]) as they were
    passed: the store in which the loop stops holds them unchanged, every
    RHS and every Jacobian evaluation returns the store it was called in,
    and every batch iteration, completed or not, preserves them. *)
Theorem run_context_unchanged {F : Type} `{PyFloat F} (ext : Externals F)
    (fuel : nat) (a : Args F) (r : res unit) (st : Store F) :
  run_simulation ext fuel a = Some (Stopped r st) ->
  args st = a /\
  (forall t y s, snd (dydt_func ext t y s) = s) /\
  (forall t y s, snd (jacobian ext t y s) = s) /\
  (forall s, args (snd (batch_body ext s)) = args s).
Proof.
  intros Hrun. destruct (run_stopped ext fuel a r st Hrun) as (st0 & Hsetup & Hloop).
  split; [|split; [|split]].
  - rewrite (fi_args _ _ _ (run_frame ext fuel a r st st0 Hsetup Hloop)).
    exact (init_args _ _ (setup_initial a st0 Hsetup)).
  - intros t y s. now rewrite dydt_func_unfold.
  - intros t y s. now rewrite jacobian_unfold.
  - apply batch_body_args.
Qed.

(** C5.  In any run, the first solver invocation starts from the initial
    state vector built at setup, and whenever batch N was followed by
    another batch, the solver returned a trajectory for batch N, the next
    invocation started from the last state of that trajectory, and that
    same state is row N of [y_matrix].  Assumed: the elapsed time is 0.0
    only before the first batch, and the solver returns states of the
    dimension it was given. *)
Theorem state_carry_over {F : Type} `{PyFloat F} (ext : Externals F)
    (fuel : nat) (a : Args F) (st0 : Store F) (r : res unit) (st : Store F) :
  (forall n, zero_only_at_start (batch_step a) n) ->
  setup a = Ok st0 ->
  keeps_shape ext a (length (y0 st0)) ->
  run_simulation ext fuel a = Some (Stopped r st) ->
  initial_y0 a = Ok (y0 st0) /\
  (forall log, trace st !! 0%nat = Some log -> log_start log = y0 st0) /\
  (forall N logN logN1,
      trace st !! N = Some logN -> trace st !! S N = Some logN1 ->
      exists ts ys row,
        log_result logN = Ok (ts, ys) /\ last_row ys = Ok row /\
        log_start logN1 = row /\ y_matrix st !! N = Some row).
Proof.
  intros Hzero Hsetup Hshape Hrun.
  pose proof (setup_initial a st0 Hsetup) as Hinit.
  destruct (run_stopped ext fuel a r st Hrun) as (st0' & Hsetup' & Hloop).
  assert (st0' = st0) by congruence. subst st0'.
  assert (Hfin : final_inv ext st0 st).
  { apply (loop_final_inv ext a st0 Hinit (proj1 (Hzero 0%nat)) Hshape fuel r st);
      [|exact Hloop].
    intros k. apply (proj2 (Hzero (S k))). lia. }
  split; [exact (init_y0 _ _ Hinit)|]. split.
  - intros log Hlog. pose proof (fin_chain _ _ _ Hfin 0%nat log Hlog) as E.
    rewrite take_0 in E. now injection E.
  - intros N logN logN1 HN HN1.
    pose proof (fin_chain _ _ _ Hfin (S N) logN1 HN1) as E.
    rewrite (take_S_r _ _ _ HN) in E. unfold next_start in E.
    rewrite last_snoc in E.
    destruct (fin_rows _ _ _ Hfin N logN HN) as (row & Hrow & Hm).
    { pose proof (fin_step _ _ _ Hfin). apply lookup_lt_Some in HN1. lia. }
    assert (row = log_start logN1) by congruence. subst row.
    unfold log_last in Hrow.
    destruct (log_result logN) as [[ts ys]|e]; [|discriminate].
    destruct (last_row ys) as [row|e] eqn:Erow; [|discriminate].
    injection Hrow as ->. now exists ts, ys, (log_start logN1).
Qed.

(** C8.  In any run, every solver invocation is made on a problem with
    time origin 0.0 and asked to integrate up to [batch_step], whatever the
    elapsed time; so with a solver that evaluates the closures only inside
    the interval it integrates over, every time [t] passed to [dydt_func]
    or [jacobian] lies between 0.0 and [batch_step], and the time of day
    [start_time + t] they hand to the rate kernel is at most
    [start_time + batch_step], in every batch.  [le] is the order on
    floats, under which adding to [start_time] is monotone. *)
Theorem time_of_day_bounded {F : Type} `{PyFloat F} (le : F -> F -> Prop)
    (ext : Externals F) (fuel : nat) (a : Args F) (r : res unit) (st : Store F) :
  (forall s t u, le t u -> le (fadd s t) (fadd s u)) ->
  stays_in_span le ext ->
  le (float_lit 0 0) (batch_step a) ->
  run_simulation ext fuel a = Some (Stopped r st) ->
  Forall (fun log =>
    prob_t0 (problem (log_sim log)) = float_lit 0 0 /\
    log_tfinal log = batch_step a /\
    Forall (fun c =>
      le (float_lit 0 0) (call_time c) /\ le (call_time c) (batch_step a) /\
      le (fadd (start_time a) (call_time c)) (fadd (start_time a) (batch_step a)))
      (log_calls log)) (trace st).
Proof.
  intros Hmono Hspan Hb Hrun.
  destruct (run_stopped ext fuel a r st Hrun) as (st0 & Hsetup & Hloop).
  pose proof (setup_initial a st0 Hsetup) as Hinit.
  pose proof (run_frame ext fuel a r st st0 Hsetup Hloop) as Hframe.
  pose proof (fi_logs _ _ _ Hframe) as Hlogs.
  eapply Forall_impl; [exact Hlogs|]. intros log Hlog. simpl.
  pose proof (logged_calls_within le ext st0 log Hspan Hlog) as Hcalls.
  rewrite (init_t0 _ _ Hinit), (init_args _ _ Hinit) in Hcalls.
  destruct Hlog as (Ht0 & Htf & _).
  rewrite (init_t0 _ _ Hinit) in Ht0. rewrite (init_args _ _ Hinit) in Htf.
  split; [exact Ht0|]. split; [exact Htf|].
  eapply Forall_impl; [exact (Hcalls Hb)|]. intros c [Hlo Hhi]. simpl.
  split; [exact Hlo|]. split; [exact Hhi|]. now apply Hmono.
Qed.

Lemma run_more_fuel {F : Type} `{PyFloat F} (ext : Externals F)
    (fuel fuel' : nat) (a : Args F) (o : outcome) :
  (fuel <= fuel')%nat ->
  run_simulation ext fuel a = Some o -> run_simulation ext fuel' a = Some o.
Proof.
  intros Hle. unfold run_simulation. destruct (setup a) as [st0|e]; [|auto].
  destruct (batch_loop ext fuel st0) as [[r st]|] eqn:E; [|discriminate].
  now rewrite (batch_loop_more_fuel ext fuel fuel' st0 (r, st) Hle E).
Qed.

(** A run whose loop test holds exactly [n] times and whose matrix was
    sized for [n] rows fills them all and stops normally. *)
Lemma fixed_batches {F : Type} `{PyFloat F} (ext : Externals F) (a : Args F) (n : nat) :
  loop_runs_b a n = true ->
  zero_only_at_start_b (batch_step a) n = true ->
  res_bind (fdiv (simulation_time a) (batch_step a)) fint = Ok (Z.of_nat n) ->
  forall st0, setup a = Ok st0 ->
  solver_succeeds ext a (length (y0 st0)) ->
  forall fuel, (n <= fuel)%nat ->
  exists st, run_simulation ext fuel a = Some (Stopped (Ok tt) st) /\
    length (y_matrix st) = n /\ time_step st = Z.of_nat n /\
    length (trace st) = n /\
    t_array st = map (elapsed (batch_step a)) (seq 1 n).
Proof.
  intros Hruns Hzero Hsteps st0 Hsetup Hsolver fuel Hfuel.
  apply loop_runs_b_sound in Hruns. apply zero_only_at_start_b_sound in Hzero.
  pose proof (setup_initial a st0 Hsetup) as Hinit.
  assert (Hrows : length (y_matrix st0) = n).
  { rewrite (init_y_matrix _ _ Hinit), repeat_length.
    destruct (init_steps _ _ Hinit) as (q & Hq & Hn).
    rewrite Hq in Hsteps. simpl in Hsteps. rewrite Hn in Hsteps.
    injection Hsteps as ->. apply Nat2Z.id. }
  destruct (run_counts ext a st0 n Hsetup Hzero Hsolver Hruns) as [Hfits _].
  destruct (Hfits ltac:(lia) fuel Hfuel) as (st & Hrun & Hfin & Htr & Hts & Harr).
  exists st. split; [exact Hrun|]. split; [|split; [exact Hts|split; [exact Htr|]]].
  - now rewrite (fin_height _ _ _ Hfin).
  - rewrite (fin_t_array _ _ _ Hfin), Harr.
    now rewrite (init_args _ _ Hinit).
Qed.

(** C6.  With [simulation_time = 3600], [batch_step = 100] and every
    solver invocation succeeding, the run stops normally with a matrix of
    exactly 36 rows, all written, and the recorded elapsed times are
    100, 200, ..., 3600: in exact arithmetic and in binary64 alike. *)
Theorem hour_in_batches_of_100 :
  (forall (ext : Externals Q) (a : Args Q),
      simulation_time a = float_lit 3600 0 -> batch_step a = float_lit 100 0 ->
      thirty_six_rows ext a) /\
  (forall (ext : Externals spec_float) (a : Args spec_float),
      simulation_time a = float_lit 3600 0 -> batch_step a = float_lit 100 0 ->
      thirty_six_rows ext a).
Proof.
  split; intros ext a HT Hb st0 Hsetup Hsolver fuel Hfuel.
  - destruct (fixed_batches ext a 36) with (st0 := st0) (fuel := fuel)
      as (st & Hrun & Hrows & Hts & Htr & Harr); try assumption.
    + unfold loop_runs_b. rewrite HT, Hb. vm_compute. reflexivity.
    + rewrite Hb. vm_compute. reflexivity.
    + rewrite HT, Hb. vm_compute. reflexivity.
    + exists st. repeat (split; [assumption|]).
      rewrite Harr, Hb. vm_compute. reflexivity.
  - destruct (fixed_batches ext a 36) with (st0 := st0) (fuel := fuel)
      as (st & Hrun & Hrows & Hts & Htr & Harr); try assumption.
    + unfold loop_runs_b. rewrite HT, Hb. vm_compute. reflexivity.
    + rewrite Hb. vm_compute. reflexivity.
    + rewrite HT, Hb. vm_compute. reflexivity.
    + exists st. repeat (split; [assumption|]).
      rewrite Harr, Hb. vm_compute. reflexivity.
Qed.

(** C2, as the code has it.  Setup validates nothing: its result does not
    depend on [RO2_indices], and the state vector it builds has
    [len(species_dict)] entries by construction, so no mismatch of the
    species count can be observed there.  A peroxy index outside the state
    vector raises [IndexError] in every evaluation of [dydt_func] and of
    [jacobian], that is, inside a solver invocation. *)
Theorem peroxy_index_checked_at_evaluation {F : Type} `{PyFloat F}
    (ext : Externals F) (a : Args F) (ro2 : list Z) :
  setup (with_RO2_indices ro2 a) =
    match setup a with
    | Ok st0 => Ok (with_args (with_RO2_indices ro2 a) st0)
    | Raise e => Raise e
    end /\
  (forall st0, setup a = Ok st0 ->
     length (y0 st0) = size (species_dict (input_dict a)) /\
     num_species st0 = size (species_dict (input_dict a)) /\
     trace st0 = []) /\
  (forall st t y,
     Exists (fun i => Z.of_nat (length y) <= i \/ i < - Z.of_nat (length y))%Z
       (RO2_indices (args st)) ->
     dydt_func ext t y st = (Raise IndexError, st) /\
     jacobian ext t y st = (Raise IndexError, st)).
Proof.
  split; [apply setup_ignores_RO2_indices|]. split.
  - intros st0 Hsetup. apply setup_initial in Hsetup.
    split; [exact (init_y0_length _ _ Hsetup)|].
    split; [exact (init_num_species _ _ Hsetup) | exact (init_trace _ _ Hsetup)].
  - intros st t y Hbad.
    rewrite dydt_func_unfold, jacobian_unfold. unfold peroxy_sum.
    now rewrite (numpy_take_out_of_range y _ Hbad).
Qed.

(** ** The properties on the test double *)

Lemma euler_stays_in_span {F : Type} `{PyFloat F} (le : F -> F -> Prop) (k : F) :
  (forall x, le x x) -> stays_in_span le (ab_ext k).
Proof.
  intros Hrefl sim tf Hle. simpl. unfold euler_simulate. simpl.
  split; [apply Hrefl|]. split; [exact Hle|]. intros [j|e]; simpl; [|exact I].
  split; [apply Hrefl|]. split; [exact Hle|]. intros [d|e]; exact I.
Qed.

Lemma dydt_func_spec_witness :
  dydt_func (ab_ext rate_Q) (float_lit 10 0) [float_lit 2 0; float_lit 3 0]
    (store_Q [1%Z]) =
  (Ok [Qmult (float_lit (-1) 0) (Qmult (float_lit 2 0) rate_Q);
       Qmult (float_lit 2 0) rate_Q], store_Q [1%Z]).
Proof.
  refine (proj1 (dydt_func_spec (ab_ext rate_Q) (store_Q [1%Z]) (float_lit 10 0)
                   [float_lit 2 0; float_lit 3 0] _ _)).
  - repeat constructor; simpl; lia.
  - intros RO2 h2o tmp tod. reflexivity.
Defined.

Lemma jacobian_spec_witness :
  jacobian (ab_ext rate_Q) (float_lit 10 0) [float_lit 2 0; float_lit 3 0]
    (store_Q [1%Z]) =
  (Ok [[Qmult (float_lit (-1) 0) rate_Q; float_lit 0 0];
       [rate_Q; float_lit 0 0]], store_Q [1%Z]).
Proof.
  refine (proj1 (jacobian_spec (ab_ext rate_Q) (store_Q [1%Z]) (float_lit 10 0)
                   [float_lit 2 0; float_lit 3 0] _)).
  repeat constructor; simpl; lia.
Defined.

Lemma initial_state_spec_witness :
  exists y, initial_y0 (args_Q [] (float_lit 300 0) (float_lit 100 0)) = Ok y /\
            y = [Qmult (float_lit 1 0) (float_lit 255 8); float_lit 0 0].
Proof.
  destruct (initial_state_spec (args_Q [] (float_lit 300 0) (float_lit 100 0)))
    as (y & Hy & _).
  - apply ab_index_map_ok.
  - apply ab_conc_ok.
  - exists y. split; [exact Hy|].
    vm_compute in Hy. now injection Hy as <-.
Defined.

Lemma run_300_100 :
  run_simulation (ab_ext rate_Q) 5 args_300_100 = Some (Stopped (Ok tt) st_300_100).
Proof. vm_compute. reflexivity. Qed.

Lemma run_context_unchanged_witness :
  args st_300_100 = args_300_100 /\
  (forall t y s, snd (dydt_func (ab_ext rate_Q) t y s) = s) /\
  (forall t y s, snd (jacobian (ab_ext rate_Q) t y s) = s) /\
  (forall s, args (snd (batch_body (ab_ext rate_Q) s)) = args s).
Proof.
  apply (run_context_unchanged (ab_ext rate_Q) 5 args_300_100 (Ok tt) st_300_100).
  exact run_300_100.
Defined.

Lemma state_carry_over_witness :
  initial_y0 args_300_100 = Ok (y0 st0_300_100) /\
  (forall log, trace st_300_100 !! 0%nat = Some log -> log_start log = y0 st0_300_100) /\
  (forall N logN logN1,
      trace st_300_100 !! N = Some logN -> trace st_300_100 !! S N = Some logN1 ->
      exists ts ys row,
        log_result logN = Ok (ts, ys) /\ last_row ys = Ok row /\
        log_start logN1 = row /\ y_matrix st_300_100 !! N = Some row).
Proof.
  apply (state_carry_over (ab_ext rate_Q) 5 args_300_100 st0_300_100 (Ok tt) st_300_100).
  - intros n. apply Q_zero_only_at_start. vm_compute. discriminate.
  - vm_compute. reflexivity.
  - apply succeeds_keeps_shape. apply euler_succeeds. constructor.
  - exact run_300_100.
Defined.

Lemma time_of_day_bounded_witness :
  Forall (fun log =>
    prob_t0 (problem (log_sim log)) = float_lit 0 0 /\
    log_tfinal log = batch_step args_300_100 /\
    Forall (fun c =>
      Qle (float_lit 0 0) (call_time c) /\
      Qle (call_time c) (batch_step args_300_100) /\
      Qle (fadd (start_time args_300_100) (call_time c))
          (fadd (start_time args_300_100) (batch_step args_300_100)))
      (log_calls log)) (trace st_300_100).
Proof.
  apply (time_of_day_bounded Qle (ab_ext rate_Q) 5 args_300_100 (Ok tt) st_300_100).
  - intros s t u Htu. apply Qplus_le_r. exact Htu.
  - apply euler_stays_in_span. apply Qle_refl.
  - vm_compute. discriminate.
  - exact run_300_100.
Defined.

Lemma hour_in_batches_of_100_witness :
  (exists st,
     run_simulation (ab_ext rate_Q) 36 args_3600_100_Q = Some (Stopped (Ok tt) st) /\
     length (y_matrix st) = 36%nat /\ time_step st = 36%Z /\
     length (trace st) = 36%nat /\ t_array st = hundreds_to_3600) /\
  (exists st,
     run_simulation (ab_ext rate_b64) 36 args_3600_100_b64 = Some (Stopped (Ok tt) st) /\
     length (y_matrix st) = 36%nat /\ time_step st = 36%Z /\
     length (trace st) = 36%nat /\ t_array st = hundreds_to_3600).
Proof.
  split.
  - apply (proj1 hour_in_batches_of_100 (ab_ext rate_Q) args_3600_100_Q
             eq_refl eq_refl
             (started_store (setup args_3600_100_Q) (ab_store args_3600_100_Q))).
    + vm_compute. reflexivity.
    + apply euler_succeeds. constructor.
    + apply le_n.
  - apply (proj2 hour_in_batches_of_100 (ab_ext rate_b64) args_3600_100_b64
             eq_refl eq_refl
             (started_store (setup args_3600_100_b64) (ab_store args_3600_100_b64))).
    + vm_compute. reflexivity.
    + apply euler_succeeds. constructor.
    + apply le_n.
Defined.

Lemma peroxy_index_checked_at_evaluation_witness :
  setup (with_RO2_indices [5%Z] args_300_100) =
    Ok (with_args (with_RO2_indices [5%Z] args_300_100) st0_300_100) /\
  dydt_func (ab_ext rate_Q) (float_lit 0 0) (y0 st0_300_100)
    (with_args (with_RO2_indices [5%Z] args_300_100) st0_300_100) =
    (Raise IndexError, with_args (with_RO2_indices [5%Z] args_300_100) st0_300_100) /\
  jacobian (ab_ext rate_Q) (float_lit 0 0) (y0 st0_300_100)
    (with_args (with_RO2_indices [5%Z] args_300_100) st0_300_100) =
    (Raise IndexError, with_args (with_RO2_indices [5%Z] args_300_100) st0_300_100).
Proof.
  destruct (peroxy_index_checked_at_evaluation (ab_ext rate_Q) args_300_100 [5%Z])
    as (Hsetup & _ & Heval).
  split; [exact Hsetup|].
  apply Heval. constructor. left. vm_compute. discriminate.
Defined.

(** ** Inputs on which the code departs from the specification *)

(** C1, at [simulation_time = 250.0] and [batch_step = 100.0] with a
    solver that always succeeds: the matrix is sized for
    floor(250 / 100) = 2 rows, the loop test holds a third time, the solver
    is invoked a third time, and the write of row 2 raises [IndexError]. *)
Theorem horizon_250_step_100_raises :
  run_simulation (ab_ext rate_b64) 10 args_250_100_b64 =
    Some (Stopped (Raise IndexError) st_250_100_b64) /\
  number_steps st_250_100_b64 = 2%Z /\
  length (y_matrix st_250_100_b64) = 2%nat /\
  length (trace st_250_100_b64) = 3%nat /\
  length (t_array st_250_100_b64) = 3%nat /\
  time_step st_250_100_b64 = 2%Z.
Proof. vm_compute. repeat split. Qed.

(** Against C2: with two species and the peroxy index 5, setup raises
    nothing; the first batch starts, the solver is invoked, and the
    [IndexError] comes out of the first closure evaluation inside it. *)
Lemma bad_peroxy_index_passes_setup :
  size (species_dict (input_dict args_bad_peroxy)) = 2%nat /\
  RO2_indices args_bad_peroxy = [5%Z] /\
  ~ rejected_at_setup args_bad_peroxy /\
  run_simulation (ab_ext rate_Q) 5 args_bad_peroxy =
    Some (Stopped (Raise IndexError) st_bad_peroxy) /\
  map log_calls (trace st_bad_peroxy) =
    [[CallJac (float_lit 0 0) [float_lit 255 8; float_lit 0 0]]] /\
  map log_result (trace st_bad_peroxy) = [Raise IndexError].
Proof.
  split; [vm_compute; reflexivity|]. split; [reflexivity|]. split.
  - intros [e He]. vm_compute in He. discriminate.
  - vm_compute. repeat split.
Qed.

(** C7, at [simulation_time = 0.8] and [batch_step = 0.1] in binary64
    with a solver that always succeeds: the horizon is exactly eight times
    the batch step and the matrix is sized for eight rows, yet eight
    additions of 0.1 give 0.7999999999999999, the loop test holds a ninth
    time, the solver is invoked a ninth time and the write of row 8 raises
    [IndexError].  The rows are counted by [int(simulation_time /
    batch_step)], the batches by the accumulated [total_time]: the two
    disagree on an exact multiple, where every write should stay in
    bounds. *)
Lemma exact_multiple_overruns_in_binary64 :
  (exists x b, b64_value (simulation_time args_08_01) = Some x /\
               b64_value (batch_step args_08_01) = Some b /\
               (0 < b)%Q /\ (x == 8 * b)%Q) /\
  run_simulation (ab_ext rate_b64) 20 args_08_01 =
    Some (Stopped (Raise IndexError) st_08_01) /\
  length (y_matrix st_08_01) = 8%nat /\
  length (trace st_08_01) = 9%nat /\
  time_step st_08_01 = 8%Z /\
  fltb (elapsed (batch_step args_08_01) 8) (simulation_time args_08_01) = true.
Proof.
  split.
  - eexists _, _. split; [vm_compute; reflexivity|]. split; [vm_compute; reflexivity|].
    split; vm_compute; reflexivity.
  - vm_compute. repeat split.
Qed.

(** ** How runs stop *)

Section RowFacts.
Context {F : Type}.

Lemma last_row_error (m : list (list F)) (e : exn) :
  last_row m = Raise e -> e = IndexError.
Proof.
  unfold last_row, py_getitem, py_index.
  destruct ((0 <=? -1)%Z && (-1 <? Z.of_nat (length m))%Z); simpl.
  - destruct (m !! Z.to_nat (-1)); [discriminate | congruence].
  - destruct ((- Z.of_nat (length m) <=? -1)%Z && (-1 <? 0)%Z); simpl; [|congruence].
    destruct (m !! Z.to_nat (-1 + Z.of_nat (length m))); [discriminate | congruence].
Qed.

Lemma set_row_error (m : list (list F)) (i : Z) (row : list F) (e : exn) :
  set_row m i row = Raise e -> e = IndexError \/ e = ValueError.
Proof.
  unfold set_row, py_index.
  destruct ((0 <=? i)%Z && (i <? Z.of_nat (length m))%Z); simpl.
  - destruct (m !! Z.to_nat i) as [old|]; [|left; congruence].
    destruct (Nat.eqb (length row) (length old)); [discriminate|].
    destruct row as [|x [|x' row]]; try discriminate; right; congruence.
  - destruct ((- Z.of_nat (length m) <=? i)%Z && (i <? 0)%Z); simpl; [|left; congruence].
    destruct (m !! Z.to_nat (i + Z.of_nat (length m))) as [old|]; [|left; congruence].
    destruct (Nat.eqb (length row) (length old)); [discriminate|].
    destruct row as [|x [|x' row]]; try discriminate; right; congruence.
Qed.

(** A row write that succeeds touches one existing row and keeps the shape
    of the matrix. *)
Lemma set_row_ok (m m' : list (list F)) (k : nat) (row : list F) :
  set_row m (Z.of_nat k) row = Ok m' ->
  (k < length m)%nat /\ length m' = length m /\
  (forall j, j <> k -> m' !! j = m !! j) /\
  (forall n, Forall (fun r => length r = n) m -> Forall (fun r => length r = n) m').
Proof.
  unfold set_row.
  destruct (py_index (length m) (Z.of_nat k)) as [j|] eqn:Ej; simpl; [|discriminate].
  assert (Hk : (k < length m)%nat).
  { unfold py_index in Ej.
    destruct ((0 <=? Z.of_nat k)%Z && (Z.of_nat k <? Z.of_nat (length m))%Z) eqn:E1.
    - apply andb_true_iff in E1 as [_ E1]. apply Z.ltb_lt in E1. lia.
    - destruct ((- Z.of_nat (length m) <=? Z.of_nat k)%Z && (Z.of_nat k <? 0)%Z) eqn:E2;
        [|discriminate].
      apply andb_true_iff in E2 as [_ E2]. apply Z.ltb_lt in E2. lia. }
  rewrite py_index_of_nat in Ej by exact Hk. injection Ej as <-.
  destruct (m !! k) as [old|] eqn:Eold; [|discriminate].
  assert (Hnew : forall new, length new = length old ->
            (k < length m)%nat /\ length (<[k := new]> m) = length m /\
            (forall j, j <> k -> <[k := new]> m !! j = m !! j) /\
            (forall n, Forall (fun r => length r = n) m ->
                       Forall (fun r => length r = n) (<[k := new]> m))).
  { intros new Hlen. split; [exact Hk|]. split; [apply length_insert|]. split.
    - intros j Hj. apply list_lookup_insert_ne. congruence.
    - intros n Hm. apply Forall_insert; [exact Hm|].
      rewrite Forall_forall in Hm. rewrite Hlen. apply Hm.
      eapply list_elem_of_lookup_2; eauto. }
  destruct (Nat.eqb (length row) (length old)) eqn:E.
  - intros [= <-]. apply Hnew. now apply Nat.eqb_eq.
  - destruct row as [|x [|x' row]]; try discriminate.
    intros [= <-]. apply Hnew. apply repeat_length.
Qed.
End RowFacts.

Section AccountingProofs.
Context {F : Type} `{PyFloat F}.
Variable ext : Externals F.

(** The loop rule with the result of the loop in the postcondition. *)
Lemma batch_loop_rule_res (I : Store F -> Prop) (Q : res unit -> Store F -> Prop) :
  (forall st, I st ->
     fltb (total_time st) (simulation_time (args st)) = false -> Q (Ok tt) st) ->
  (forall st st', I st -> batch_body ext st = (Ok tt, st') -> I st') ->
  (forall st st' e, I st -> batch_body ext st = (Raise e, st') -> Q (Raise e) st') ->
  forall fuel st r st',
    I st -> batch_loop ext fuel st = Some (r, st') -> Q r st'.
Proof.
  intros Hfin Hstep Hfault. induction fuel as [|fuel IH]; intros st r st' Hi; simpl.
  - destruct (fltb _ _) eqn:E; [discriminate|]. intros [= <- <-]. now apply Hfin.
  - destruct (fltb _ _) eqn:E.
    + destruct (batch_body ext st) as [[[]|e] st1] eqn:Eb.
      * apply IH. eapply Hstep; eauto.
      * intros [= <- <-]. eapply Hfault; eauto.
    + intros [= <- <-]. now apply Hfin.
Qed.

Lemma batch_sim_frame (st0 st : Store F) (x : list F) :
  frame_inv ext st0 st -> batch_sim st x = batch_sim st0 x.
Proof.
  intros [Ha _ Hn Ht _ _]. unfold batch_sim. now rewrite Ha, Hn, Ht.
Qed.

Lemma count_inv_initial (a : Args F) (st0 : Store F) :
  initial a st0 -> count_inv ext st0 st0.
Proof.
  intros Hinit.
  destruct Hinit as [Ha Hc Hn Hy Hyl Ht Htot Harr Hts Hout Htr Hsteps Hnn Hm].
  split.
  - now apply frame_inv_refl.
  - now rewrite Htr, Hts.
  - now rewrite Htr, Harr.
  - now rewrite Htr, Htot.
  - now rewrite Htr, Harr.
  - rewrite Htr. constructor.
  - rewrite Htr. constructor.
  - intros log. rewrite Htr. discriminate.
  - reflexivity.
  - rewrite Hm. apply Forall_forall. intros r Hr.
    apply list_elem_of_In, repeat_spec in Hr. subst r. apply repeat_length.
  - rewrite Htr. simpl. lia.
  - intros j Hj. rewrite Hm. rewrite Hm, repeat_length in Hj.
    apply lookup_repeat. lia.
Qed.

(** A batch that completes extends the log by one successful invocation
    and writes the row at its index. *)
Lemma count_inv_step (st0 st st' : Store F) :
  count_inv ext st0 st -> batch_body ext st = (Ok tt, st') -> count_inv ext st0 st'.
Proof.
  intros Hci Hbody.
  pose proof (frame_inv_body ext st0 st st' (Ok tt) (ci_frame _ _ _ Hci) Hbody) as Hframe.
  rewrite batch_body_unfold in Hbody.
  destruct (batch_init st) as [x|e0] eqn:Hx; [|discriminate]. cbv zeta in Hbody.
  destruct (log_result (batch_log ext st x)) as [[ts ys]|e1] eqn:Eres; [|discriminate].
  destruct (last_row ys) as [row|e2] eqn:Erow; [|discriminate].
  destruct (set_row (y_matrix st) (time_step st) row) as [m|e3] eqn:Eset; [|discriminate].
  injection Hbody as <-.
  destruct (after_solve_fields ext st x ys) as (Hts & Hm & Hout & Htot & Harr).
  pose proof (after_solve_trace ext st x ys) as Htr.
  destruct Hci as [Hfr Hstep Hcount Htotal Htimes Hres Hsims Houtput Hheight Hwidth Hwritten Hzero].
  rewrite Hstep in Eset.
  destruct (set_row_ok _ _ _ _ Eset) as (Hk & Hlen & Hother & Hshape).
  assert (Hlast : log_last (batch_log ext st x) = Some row).
  { unfold log_last. now rewrite Eres, Erow. }
  set (mid := after_solve ext st x ys) in *. clearbody mid.
  split; simpl.
  - exact Hframe.
  - rewrite Htr, length_app, Hstep. simpl. lia.
  - rewrite Harr, Htr, !length_app, Hcount. reflexivity.
  - rewrite Htot, Htr, length_app, Nat.add_1_r, elapsed_S, Htotal.
    now rewrite (fi_args _ _ _ Hfr).
  - rewrite Harr, Htr, length_app, Nat.add_1_r, <- times_snoc, <- Htimes.
    do 2 f_equal. rewrite Htotal. now rewrite (fi_args _ _ _ Hfr).
  - rewrite Htr. apply Forall_app. split; [exact Hres|]. constructor; [|constructor].
    rewrite Hlast. eauto.
  - rewrite Htr. apply Forall_app. split; [exact Hsims|]. constructor; [|constructor].
    rewrite log_start_batch_log. apply (batch_sim_frame st0 st x Hfr).
  - intros log. rewrite Htr, last_snoc. intros [= <-]. now exists ts, ys.
  - now rewrite Hlen.
  - now apply Hshape.
  - rewrite Htr, length_app. simpl. rewrite <- Hheight. lia.
  - intros j Hj. rewrite Htr, length_app in Hj. simpl in Hj.
    rewrite Hother by lia. apply Hzero. lia.
Qed.

Lemma count_inv_fault (st0 st st' : Store F) (e : exn) :
  count_inv ext st0 st -> batch_body ext st = (Raise e, st') ->
  stop_state ext st0 (Raise e) st'.
Proof.
  intros Hci Hbody. rewrite batch_body_unfold in Hbody.
  destruct (batch_init st) as [x|e0] eqn:Hx.
  - cbv zeta in Hbody.
    destruct (log_result (batch_log ext st x)) as [[ts ys]|e1] eqn:Eres.
    + destruct (last_row ys) as [row|e2] eqn:Erow.
      * destruct (set_row (y_matrix st) (time_step st) row) as [m|e3] eqn:Eset;
          [discriminate|].
        injection Hbody as <- <-.
        apply (stop_record ext st0 st x ts ys e3 Hci Hx Eres). right. now exists row.
      * injection Hbody as <- <-.
        apply (stop_record ext st0 st x ts ys e2 Hci Hx Eres). now left.
    + injection Hbody as <- <-. now apply stop_solver.
  - injection Hbody as <- <-. now apply stop_init.
Qed.

Lemma loop_stop_state (st0 : Store F) (fuel : nat) (st : Store F) (r : res unit)
    (st' : Store F) :
  count_inv ext st0 st -> batch_loop ext fuel st = Some (r, st') ->
  stop_state ext st0 r st'.
Proof.
  apply (batch_loop_rule_res (count_inv ext st0) (stop_state ext st0)).
  - intros s Hs Htest. now apply stop_normal.
  - intros s s'. apply count_inv_step.
  - intros s s' e. apply count_inv_fault.
Qed.

Lemma run_stop_state (fuel : nat) (a : Args F) (r : res unit) (st : Store F) :
  run_simulation ext fuel a = Some (Stopped r st) ->
  exists st0, setup a = Ok st0 /\ stop_state ext st0 r st.
Proof.
  intros Hrun. destruct (run_stopped ext fuel a r st Hrun) as (st0 & Hsetup & Hloop).
  exists st0. split; [exact Hsetup|].
  eapply loop_stop_state; [|exact Hloop].
  apply (count_inv_initial a). apply setup_initial. exact Hsetup.
Qed.

(** With [0.0 == 0.0], the initial state of the next batch can always be
    read at the head of the loop. *)
Lemma count_inv_init_ok (st0 st : Store F) :
  feqb (float_lit 0 0) (float_lit 0 0) = true ->
  count_inv ext st0 st -> exists x, batch_init st = Ok x.
Proof.
  intros Hz Hci. unfold batch_init.
  destruct (feqb (total_time st) (float_lit 0 0)) eqn:E; [eauto|].
  destruct (trace st) as [|l tr] eqn:Htr using rev_ind.
  - rewrite (ci_total _ _ _ Hci), Htr in E. simpl in E. congruence.
  - clear IHtr.
    destruct (ci_output _ _ _ Hci l) as (ts & ys & Hres & Hout).
    { rewrite Htr. apply last_snoc. }
    rewrite Hout.
    pose proof (ci_results _ _ _ Hci) as Hok. rewrite Htr in Hok.
    apply Forall_app in Hok as [_ Hok]. apply Forall_cons in Hok as [[row Hrow] _].
    unfold log_last in Hrow. rewrite Hres in Hrow.
    destruct (last_row ys) as [row'|]; [eauto | discriminate].
Qed.
End AccountingProofs.

Section StopFacts.
Context {F : Type} `{PyFloat F}.
Variable ext : Externals F.

(** The store the loop stops in differs from a store at the head of the
    loop by at most one logged invocation and one recorded time. *)
Lemma stop_state_prev (st0 : Store F) (r : res unit) (st : Store F) :
  stop_state ext st0 r st ->
  exists prev, count_inv ext st0 prev /\
    args st = args st0 /\ number_steps st = number_steps st0 /\
    y_matrix st = y_matrix prev /\ time_step st = time_step prev /\
    ((trace st = trace prev /\ t_array st = t_array prev /\
      total_time st = total_time prev) \/
     (exists log, trace st = trace prev ++ [log] /\
        log_sim log = batch_sim st0 (log_start log) /\
        ((t_array st = t_array prev /\ total_time st = total_time prev /\
          exists e, log_result log = Raise e /\ r = Raise e) \/
         (t_array st = t_array prev ++ [fadd (total_time prev) (batch_step (args st0))] /\
          total_time st = fadd (total_time prev) (batch_step (args st0)) /\
          exists ts ys e, log_result log = Ok (ts, ys) /\ r = Raise e /\
                          (e = IndexError \/ e = ValueError))))).
Proof.
  intros Hstop. destruct Hstop as [st Hci Htest | st e Hci Hinit
    | prev x e Hci Hx Hres | prev x ts ys e Hci Hx Hres Hrec].
  - exists st. split; [exact Hci|].
    split; [exact (fi_args _ _ _ (ci_frame _ _ _ Hci))|].
    split; [exact (fi_number_steps _ _ _ (ci_frame _ _ _ Hci))|].
    split; [reflexivity|]. split; [reflexivity|]. left. now repeat split.
  - exists st. split; [exact Hci|].
    split; [exact (fi_args _ _ _ (ci_frame _ _ _ Hci))|].
    split; [exact (fi_number_steps _ _ _ (ci_frame _ _ _ Hci))|].
    split; [reflexivity|]. split; [reflexivity|]. left. now repeat split.
  - exists prev. split; [exact Hci|].
    pose proof (ci_frame _ _ _ Hci) as Hfr.
    assert (Hsim : log_sim (batch_log ext prev x) =
                   batch_sim st0 (log_start (batch_log ext prev x))).
    { rewrite log_start_batch_log. apply (batch_sim_frame ext st0 prev x Hfr). }
    destruct (feqb (total_time prev) (float_lit 0 0)); simpl.
    + split; [exact (fi_args _ _ _ Hfr)|].
      split; [exact (fi_number_steps _ _ _ Hfr)|].
      split; [reflexivity|]. split; [reflexivity|]. right.
      exists (batch_log ext prev x). split; [reflexivity|]. split; [exact Hsim|].
      left. split; [reflexivity|]. split; [reflexivity|]. now exists e.
    + split; [exact (fi_args _ _ _ Hfr)|].
      split; [exact (fi_number_steps _ _ _ Hfr)|].
      split; [reflexivity|]. split; [reflexivity|]. right.
      exists (batch_log ext prev x). split; [reflexivity|]. split; [exact Hsim|].
      left. split; [reflexivity|]. split; [reflexivity|]. now exists e.
  - exists prev. split; [exact Hci|].
    pose proof (ci_frame _ _ _ Hci) as Hfr.
    destruct (after_solve_fields ext prev x ys) as (Hts & Hm & _ & Htot & Harr).
    rewrite (fi_args _ _ _ Hfr) in Htot, Harr.
    assert (Ha : args (after_solve ext prev x ys) = args st0).
    { unfold after_solve. destruct (feqb _ _); exact (fi_args _ _ _ Hfr). }
    assert (Hn : number_steps (after_solve ext prev x ys) = number_steps st0).
    { unfold after_solve. destruct (feqb _ _); exact (fi_number_steps _ _ _ Hfr). }
    split; [exact Ha|]. split; [exact Hn|]. split; [exact Hm|]. split; [exact Hts|].
    right. exists (batch_log ext prev x).
    split; [apply after_solve_trace|]. split.
    { rewrite log_start_batch_log. apply (batch_sim_frame ext st0 prev x Hfr). }
    right. split; [exact Harr|]. split; [exact Htot|].
    exists ts, ys, e. split; [exact Hres|]. split; [reflexivity|].
    destruct Hrec as [Hl | (row & _ & Hs)].
    + left. eapply last_row_error; eauto.
    + eapply set_row_error; eauto.
Qed.
End StopFacts.

(** ** Further properties of the controller *)

(** X1.  Wherever a run stops, [y_matrix] still has the shape setup gave
    it: [number_steps] rows of [len(species_dict)] entries.  [time_step]
    lies between 0 and [number_steps], and every row from [time_step] on
    is still all zeros: a batch that was not recorded leaves no trace in
    the matrix. *)
Theorem matrix_keeps_shape {F : Type} `{PyFloat F} (ext : Externals F)
    (fuel : nat) (a : Args F) (r : res unit) (st : Store F) :
  run_simulation ext fuel a = Some (Stopped r st) ->
  (0 <= time_step st <= number_steps st)%Z /\
  length (y_matrix st) = Z.to_nat (number_steps st) /\
  Forall (fun row => length row = size (species_dict (input_dict a))) (y_matrix st) /\
  (forall j, (Z.to_nat (time_step st) <= j < length (y_matrix st))%nat ->
     y_matrix st !! j =
       Some (repeat (float_lit 0 0) (size (species_dict (input_dict a))))).
Proof.
  intros Hrun. destruct (run_stop_state ext fuel a r st Hrun) as (st0 & Hsetup & Hstop).
  pose proof (setup_initial a st0 Hsetup) as Hinit.
  destruct (stop_state_prev ext st0 r st Hstop)
    as (prev & Hci & _ & Hns & Hm & Hts & _).
  pose proof (init_steps_nonneg _ _ Hinit) as Hnn.
  assert (Hrows : length (y_matrix st0) = Z.to_nat (number_steps st0)).
  { rewrite (init_y_matrix _ _ Hinit). apply repeat_length. }
  pose proof (ci_written _ _ _ Hci) as Hw. rewrite Hrows in Hw.
  rewrite Hts, Hm, Hns, (ci_step _ _ _ Hci), (ci_height _ _ _ Hci), Hrows.
  rewrite <- (init_y0_length _ _ Hinit).
  split; [lia|]. split; [reflexivity|]. split; [exact (ci_width _ _ _ Hci)|].
  intros j Hj. apply (ci_unwritten _ _ _ Hci). rewrite Hrows. lia.
Qed.

(** X2.  Wherever a run stops, the recorded elapsed times are the running
    float sums of [batch_step] starting from 0.0, [total_time] is the sum
    for as many batches as there are recorded times, and there are as many
    recorded times as written rows, or one more when the run stopped on
    the row write. *)
Theorem recorded_times_are_running_sums {F : Type} `{PyFloat F} (ext : Externals F)
    (fuel : nat) (a : Args F) (r : res unit) (st : Store F) :
  run_simulation ext fuel a = Some (Stopped r st) ->
  t_array st = map (elapsed (batch_step a)) (seq 1 (length (t_array st))) /\
  total_time st = elapsed (batch_step a) (length (t_array st)) /\
  (Z.of_nat (length (t_array st)) = time_step st \/
   Z.of_nat (length (t_array st)) = (time_step st + 1)%Z /\ is_Ok r = false).
Proof.
  intros Hrun. destruct (run_stop_state ext fuel a r st Hrun) as (st0 & Hsetup & Hstop).
  pose proof (setup_initial a st0 Hsetup) as Hinit.
  destruct (stop_state_prev ext st0 r st Hstop)
    as (prev & Hci & _ & _ & _ & Hts & Hcases).
  pose proof (ci_times _ _ _ Hci) as Htimes. pose proof (ci_total _ _ _ Hci) as Htot.
  pose proof (ci_count _ _ _ Hci) as Hcount. pose proof (ci_step _ _ _ Hci) as Hstep.
  rewrite (init_args _ _ Hinit) in Htimes, Htot.
  rewrite Hts, Hstep.
  destruct Hcases as [(_ & -> & ->) | (log & _ & _ & [(-> & -> & _) | (-> & -> & Hres)])].
  - rewrite Hcount. split; [exact Htimes|]. split; [exact Htot|]. now left.
  - rewrite Hcount. split; [exact Htimes|]. split; [exact Htot|]. now left.
  - rewrite length_app, Hcount, Nat.add_1_r, Htot, (init_args _ _ Hinit), <- elapsed_S.
    split; [|split; [reflexivity|]].
    + rewrite Htimes at 1. apply times_snoc.
    + right. split; [lia|]. destruct Hres as (ts & ys & e & _ & -> & _). reflexivity.
Qed.

(** X3.  Every solver invocation of a run is configured alike: the problem
    is named [filename], starts at time 0.0 and carries the Jacobian;
    [atol] is 1e-3 for each of the [len(species_dict)] species, [rtol] and
    [inith] are 1e-6, [maxh] is 100, [usejac] and [report_continuously]
    are set and [maxncf] is 1000.  Only the initial state differs from
    batch to batch. *)
Theorem every_batch_configured_alike {F : Type} `{PyFloat F} (ext : Externals F)
    (fuel : nat) (a : Args F) (r : res unit) (st : Store F) :
  run_simulation ext fuel a = Some (Stopped r st) ->
  Forall (fun log =>
    log_sim log =
      {| problem := {| prob_y0 := log_start log; prob_t0 := float_lit 0 0;
                       prob_name := filename a; prob_jac := true |};
         atol := repeat (float_lit 1 (-3)) (size (species_dict (input_dict a)));
         rtol := float_lit 1 (-6); inith := float_lit 1 (-6);
         maxh := float_lit 100 0; usejac := true;
         report_continuously := true; maxncf := 1000 |}) (trace st).
Proof.
  intros Hrun. destruct (run_stop_state ext fuel a r st Hrun) as (st0 & Hsetup & Hstop).
  pose proof (setup_initial a st0 Hsetup) as Hinit.
  destruct (stop_state_prev ext st0 r st Hstop)
    as (prev & Hci & _ & _ & _ & _ & Hcases).
  assert (Hall : Forall (fun log => log_sim log = batch_sim st0 (log_start log)) (trace st)).
  { destruct Hcases as [(-> & _) | (log & -> & Hsim & _)].
    - exact (ci_sims _ _ _ Hci).
    - apply Forall_app. split; [exact (ci_sims _ _ _ Hci)|]. now constructor. }
  eapply Forall_impl; [exact Hall|]. intros log ->. unfold batch_sim.
  now rewrite (init_t0 _ _ Hinit), (init_args _ _ Hinit), (init_num_species _ _ Hinit).
Qed.

(** X4.  After setup, a run stops on an exception in one of two ways only.
    Either the last solver invocation raised it: then nothing of that batch
    was recorded (as many recorded times as written rows, one fewer than
    invocations).  Or the last invocation returned a trajectory and
    recording its last state raised [IndexError] or [ValueError]: then the
    elapsed time of that batch was already recorded, its row was not.
    ([0.0 == 0.0] is assumed of the float equality.) *)
Theorem run_stops_on_solver_or_record_error {F : Type} `{PyFloat F} (ext : Externals F)
    (fuel : nat) (a : Args F) (e : exn) (st : Store F) :
  feqb (float_lit 0 0) (float_lit 0 0) = true ->
  run_simulation ext fuel a = Some (Stopped (Raise e) st) ->
  exists log, last (trace st) = Some log /\
    Z.of_nat (length (trace st)) = (time_step st + 1)%Z /\
    ((log_result log = Raise e /\
      Z.of_nat (length (t_array st)) = time_step st) \/
     ((exists ts ys, log_result log = Ok (ts, ys)) /\
      (e = IndexError \/ e = ValueError) /\
      Z.of_nat (length (t_array st)) = (time_step st + 1)%Z)).
Proof.
  intros Hz Hrun.
  destruct (run_stop_state ext fuel a (Raise e) st Hrun) as (st0 & Hsetup & Hstop).
  assert (Hnoinit : forall s e', count_inv ext st0 s -> batch_init s = Raise e' -> False).
  { intros s e' Hs He'. destruct (count_inv_init_ok ext st0 s Hz Hs) as [x Hx]. congruence. }
  destruct (stop_state_prev ext st0 (Raise e) st Hstop)
    as (prev & Hci & _ & _ & _ & Hts & Hcases).
  pose proof (ci_count _ _ _ Hci) as Hcount. pose proof (ci_step _ _ _ Hci) as Hstep.
  destruct Hcases as [(Htr & _) | (log & Htr & _ & Hkind)].
  - exfalso. inversion Hstop as [ | s e' Hs He' | p x e' Hp Hx Hres | p x ts ys e' Hp Hx Hres Hrec];
      subst.
    + eapply Hnoinit; eauto.
    + destruct (feqb (total_time p) (float_lit 0 0)); simpl in Htr;
        apply (f_equal (@length _)) in Htr; rewrite length_app in Htr; simpl in Htr.
      * destruct (stop_state_prev ext st0 _ _ Hstop) as (q & _). clear q.
        assert (Hlen : length (trace prev) = length (trace p)).
        { rewrite (ci_step _ _ _ Hci) in Hts. simpl in Hts.
          rewrite (ci_step _ _ _ Hp) in Hts. lia. }
        lia.
      * assert (Hlen : length (trace prev) = length (trace p)).
        { rewrite (ci_step _ _ _ Hci) in Hts. simpl in Hts.
          rewrite (ci_step _ _ _ Hp) in Hts. lia. }
        lia.
    + rewrite after_solve_trace in Htr.
      apply (f_equal (@length _)) in Htr; rewrite length_app in Htr; simpl in Htr.
      assert (Hlen : length (trace prev) = length (trace p)).
      { destruct (after_solve_fields ext p x ys) as (Hts' & _).
        rewrite (ci_step _ _ _ Hci), Hts', (ci_step _ _ _ Hp) in Hts. lia. }
      lia.
  - exists log. rewrite Htr, last_snoc, length_app, Hts, Hstep. simpl.
    split; [reflexivity|]. split; [lia|].
    destruct Hkind as [(-> & _ & e' & Hres & He) | (-> & _ & ts & ys & e' & Hres & He & Hk)];
      injection He as <-.
    + left. split; [exact Hres|]. lia.
    + right. split; [eauto|]. split; [exact Hk|]. rewrite length_app. simpl. lia.
Qed.

(** X5.  When the matrix was sized for no row at all although the horizon
    is positive (a horizon shorter than one batch, for instance), no run
    completes: the first batch is started, the solver is invoked once, and
    the run stops on an exception with the matrix still empty. *)
Theorem no_rows_no_batch {F : Type} `{PyFloat F} (ext : Externals F)
    (fuel : nat) (a : Args F) (st0 : Store F) :
  feqb (float_lit 0 0) (float_lit 0 0) = true ->
  setup a = Ok st0 ->
  number_steps st0 = 0%Z ->
  fltb (float_lit 0 0) (simulation_time a) = true ->
  (1 <= fuel)%nat ->
  exists e st, run_simulation ext fuel a = Some (Stopped (Raise e) st) /\
               length (trace st) = 1%nat /\ y_matrix st = [].
Proof.
  intros Hz Hsetup Hns Hpos Hfuel.
  pose proof (setup_initial a st0 Hsetup) as Hinit.
  assert (Hm : y_matrix st0 = []) by (rewrite (init_y_matrix _ _ Hinit), Hns; reflexivity).
  assert (Hx : batch_init st0 = Ok (y0 st0)).
  { unfold batch_init. now rewrite (init_total_time _ _ Hinit), Hz. }
  destruct fuel as [|fuel]; [lia|].
  unfold run_simulation. rewrite Hsetup. simpl.
  rewrite (init_total_time _ _ Hinit), (init_args _ _ Hinit), Hpos.
  rewrite batch_body_unfold, Hx. cbv zeta.
  assert (Htr : forall s, trace (log_batch (batch_log ext st0 (y0 st0)) s) =
                          trace s ++ [batch_log ext st0 (y0 st0)]) by reflexivity.
  destruct (log_result (batch_log ext st0 (y0 st0))) as [[ts ys]|e] eqn:Eres.
  - destruct (after_solve_fields ext st0 (y0 st0) ys) as (_ & Hm' & _).
    pose proof (after_solve_trace ext st0 (y0 st0) ys) as Htr'.
    rewrite (init_trace _ _ Hinit) in Htr'.
    destruct (last_row ys) as [row|e] eqn:Erow.
    + destruct (set_row (y_matrix st0) (time_step st0) row) as [m|e] eqn:Eset.
      * rewrite (init_time_step _ _ Hinit) in Eset. change 0%Z with (Z.of_nat 0) in Eset.
        apply set_row_ok in Eset as [Hlt _]. rewrite Hm in Hlt. simpl in Hlt. lia.
      * exists e, (after_solve ext st0 (y0 st0) ys).
        split; [reflexivity|]. rewrite Htr', Hm', Hm. now split.
    + exists e, (after_solve ext st0 (y0 st0) ys).
      split; [reflexivity|]. rewrite Htr', Hm', Hm. now split.
  - eexists e, _. split; [reflexivity|].
    rewrite (init_total_time _ _ Hinit), Hz. rewrite Htr, (init_trace _ _ Hinit).
    split; [reflexivity | exact Hm].
Qed.

(** X7.  A run that ends normally has recorded every batch it started:
    every solver invocation returned a trajectory with a last state, there
    is one written row and one recorded time per invocation and never
    more invocations than the matrix has rows, and the loop was left
    because the elapsed time, the running sum of [batch_step] over these
    batches, is not below [simulation_time]. *)
Theorem completed_run_recorded_every_batch {F : Type} `{PyFloat F} (ext : Externals F)
    (fuel : nat) (a : Args F) (st : Store F) :
  run_simulation ext fuel a = Some (Stopped (Ok tt) st) ->
  Forall (fun log => is_Some (log_last log)) (trace st) /\
  time_step st = Z.of_nat (length (trace st)) /\
  length (t_array st) = length (trace st) /\
  (length (trace st) <= length (y_matrix st))%nat /\
  total_time st = elapsed (batch_step a) (length (trace st)) /\
  fltb (total_time st) (simulation_time a) = false.
Proof.
  intros Hrun. destruct (run_stop_state ext fuel a (Ok tt) st Hrun) as (st0 & Hsetup & Hstop).
  pose proof (setup_initial a st0 Hsetup) as Hinit.
  inversion Hstop as [s Hci Htest | | | ]; subst.
  pose proof (ci_total _ _ _ Hci) as Htot. rewrite (init_args _ _ Hinit) in Htot.
  rewrite (fi_args _ _ _ (ci_frame _ _ _ Hci)), (init_args _ _ Hinit) in Htest.
  split; [exact (ci_results _ _ _ Hci)|].
  split; [exact (ci_step _ _ _ Hci)|].
  split; [exact (ci_count _ _ _ Hci)|].
  split; [rewrite (ci_height _ _ _ Hci); exact (ci_written _ _ _ Hci)|].
  split; [exact Htot | exact Htest].
Qed.

(** ** Indices counted from the end *)

Lemma py_index_in_range (n : nat) (i : Z) :
  in_range n i -> py_index n i = Ok (wrapped n i).
Proof.
  unfold in_range, wrapped. intros Hi.
  destruct (Z.neg_nonneg_cases i) as [Hneg|Hpos].
  - unfold py_index.
    assert (E1 : (0 <=? i)%Z = false) by (apply Z.leb_gt; lia).
    assert (E2 : (- Z.of_nat n <=? i)%Z = true) by (apply Z.leb_le; lia).
    assert (E3 : (i <? 0)%Z = true) by (apply Z.ltb_lt; lia).
    rewrite E1, E2, E3. simpl. do 2 f_equal.
    apply Z.mod_unique with (q := (-1)%Z); lia.
  - rewrite py_index_nonneg by lia. do 2 f_equal.
    symmetry. apply Z.mod_small. lia.
Qed.

Lemma py_index_not_in_range (n : nat) (i : Z) :
  ~ in_range n i -> py_index n i = Raise IndexError.
Proof.
  unfold in_range. intros Hi.
  destruct (Z.lt_ge_cases i (- Z.of_nat n)).
  - now apply py_index_before_start.
  - apply py_index_past_end. lia.
Qed.

Lemma in_range_dec (n : nat) (i : Z) : in_range n i \/ ~ in_range n i.
Proof. unfold in_range. lia. Qed.

Lemma py_index_ok (n : nat) (i : Z) (k : nat) :
  py_index n i = Ok k -> in_range n i /\ k = wrapped n i.
Proof.
  intros E. destruct (in_range_dec n i) as [Hi|Hi].
  - rewrite (py_index_in_range n i Hi) in E. split; [exact Hi | congruence].
  - rewrite (py_index_not_in_range n i Hi) in E. discriminate.
Qed.

Lemma py_getitem_wrapped {A} (l : list A) (i : Z) (d : A) :
  in_range (length l) i -> py_getitem l i = Ok (nth (wrapped (length l) i) l d).
Proof.
  intros Hi. unfold py_getitem. pose proof (py_index_in_range _ _ Hi) as E.
  rewrite E. simpl. apply py_index_bound in E.
  destruct (l !! wrapped (length l) i) as [x|] eqn:Ex.
  - f_equal. symmetry. now apply nth_lookup_Some with (d := d) in Ex.
  - apply lookup_ge_None in Ex. lia.
Qed.

Lemma numpy_take_wrapped {A} (y : list A) (idxs : list Z) (d : A) :
  Forall (in_range (length y)) idxs ->
  numpy_take y idxs = Ok (map (fun i => nth (wrapped (length y) i) y d) idxs).
Proof.
  induction 1 as [|i rest Hi _ IH]; simpl; [reflexivity|].
  rewrite (py_getitem_wrapped y i d Hi). simpl. now rewrite IH.
Qed.

Lemma numpy_take_not_in_range {A} (y : list A) (idxs : list Z) :
  ~ Forall (in_range (length y)) idxs -> numpy_take y idxs = Raise IndexError.
Proof.
  intros Hnot. apply numpy_take_out_of_range.
  induction idxs as [|i rest IH].
  - exfalso. apply Hnot. constructor.
  - destruct (in_range_dec (length y) i) as [Hi|Hi].
    + apply Exists_cons_tl. apply IH. intros Hrest. apply Hnot. now constructor.
    + apply Exists_cons_hd. unfold in_range in Hi. lia.
Qed.

(** X8.  Both closures accept peroxy indices counted from the end.  With
    every index in [-len(y), len(y)), the peroxy sum is taken over the
    entries at the wrapped positions ([-1] is the last species);
    [jacobian] returns the matrix assembled from the rates at that sum,
    and [dydt_func] returns the loss-gain kernel of the product of the
    reactant products with these same rates (a [ValueError] when the two
    vectors cannot be multiplied).  Each closure raises [IndexError]
    exactly when some index lies outside that range. *)
Theorem peroxy_indices_wrap {F : Type} `{PyFloat F} (ext : Externals F)
    (st : Store F) (t : F) (y : list F) :
  let RO2 := numpy_sum (map (fun i => nth (wrapped (length y) i) y (float_lit 0 0))
                          (RO2_indices (args st))) in
  let rates := evaluate_rates_fortran ext RO2 (H2O (args st)) (temp (args st))
                 (fadd (start_time (args st)) t) in
  (Forall (in_range (length y)) (RO2_indices (args st)) ->
   jacobian ext t y st = (Ok (jacobian_fortran ext rates y), st) /\
   dydt_func ext t y st =
     (res_bind (numpy_multiply (reactants_fortran ext y) rates)
        (fun r => Ok (loss_gain_fortran ext r)), st) /\
   (length (reactants_fortran ext y) = length rates ->
    dydt_func ext t y st =
      (Ok (loss_gain_fortran ext (zip_mul (reactants_fortran ext y) rates)), st))) /\
  (fst (jacobian ext t y st) = Raise IndexError <->
   ~ Forall (in_range (length y)) (RO2_indices (args st))) /\
  (fst (dydt_func ext t y st) = Raise IndexError <->
   ~ Forall (in_range (length y)) (RO2_indices (args st))).
Proof.
  intros RO2 rates.
  assert (Hin : Forall (in_range (length y)) (RO2_indices (args st)) ->
                peroxy_sum (args st) y = Ok RO2).
  { intros Hall. unfold peroxy_sum, RO2.
    now rewrite (numpy_take_wrapped y _ (float_lit 0 0) Hall). }
  assert (Hout : ~ Forall (in_range (length y)) (RO2_indices (args st)) ->
                 peroxy_sum (args st) y = Raise IndexError).
  { intros Hnot. unfold peroxy_sum.
    now rewrite (numpy_take_not_in_range y _ Hnot). }
  assert (Hr : rate_vector ext (args st) t RO2 = rates) by reflexivity.
  split; [|split].
  - intros Hall. rewrite jacobian_unfold, dydt_func_unfold, (Hin Hall).
    cbn [res_bind]. rewrite Hr.
    split; [reflexivity|]. split; [reflexivity|].
    intros Hlen. now rewrite (numpy_multiply_same_length _ _ Hlen).
  - rewrite jacobian_unfold. split.
    + intros E Hall. rewrite (Hin Hall) in E. discriminate.
    + intros Hnot. now rewrite (Hout Hnot).
  - rewrite dydt_func_unfold. split.
    + intros E Hall. rewrite (Hin Hall) in E. cbn [res_bind fst] in E.
      rewrite Hr in E. unfold numpy_multiply in E.
      destruct (Nat.eqb _ _); [discriminate|].
      destruct (reactants_fortran ext y) as [|x [|x' l]];
        destruct rates as [|r [|r' l']]; discriminate.
    + intros Hnot. now rewrite (Hout Hnot).
Qed.

(** ** Building the initial state vector *)

Section Populate.
Context {F : Type} `{PyFloat F}.

Lemma populate_y0_app (inp : InputDict F) (C : F) (k1 k2 : list string) :
  forall y, populate_y0 inp C (k1 ++ k2) y =
            res_bind (populate_y0 inp C k1 y) (populate_y0 inp C k2).
Proof.
  induction k1 as [|s k1 IH]; intros y; simpl; [reflexivity|].
  destruct (dict_get _ s) as [c|]; simpl; [|reflexivity].
  destruct (gmap_get _ s) as [i|]; simpl; [|reflexivity].
  destruct (py_setitem y i (fmul c C)) as [y1|]; simpl; [apply IH | reflexivity].
Qed.

Lemma py_setitem_ok {A} (l l' : list A) (i : Z) (v : A) :
  py_setitem l i v = Ok l' ->
  in_range (length l) i /\ l' = <[wrapped (length l) i := v]> l.
Proof.
  unfold py_setitem. destruct (py_index (length l) i) as [k|] eqn:E; simpl; [|discriminate].
  apply py_index_ok in E as [Hi ->]. intros [= <-]. now split.
Qed.

Lemma populate_y0_outcome (inp : InputDict F) (C : F) (keys : list string) :
  (forall s, In s keys -> In s (dict_keys (species_initial_conc inp))) ->
  forall y,
    ((exists y', populate_y0 inp C keys y = Ok y') <->
     Forall (writable inp (length y)) keys) /\
    (forall e, populate_y0 inp C keys y = Raise e -> e = KeyError \/ e = IndexError).
Proof.
  induction keys as [|s keys IH]; intros Hnamed y.
  - simpl. split; [split; [constructor | eauto] | discriminate].
  - destruct (dict_get_key _ s (Hnamed s (or_introl eq_refl))) as (c & Hc & _).
    simpl. rewrite Hc. simpl. unfold gmap_get.
    destruct (species_dict2array inp !! s) as [i|] eqn:Ei; simpl.
    + destruct (py_setitem y i (fmul c C)) as [y1|e1] eqn:E1; simpl.
      * pose proof (py_setitem_length _ _ _ _ E1) as Hlen.
        apply py_setitem_ok in E1 as [Hi _].
        destruct (IH (fun s' h => Hnamed s' (or_intror h)) y1) as [IHok IHerr].
        rewrite Hlen in IHok. split; [|exact IHerr]. split.
        -- intros Hy'. constructor; [now exists i | now apply IHok].
        -- intros Hall. apply Forall_cons in Hall as [_ Hall]. now apply IHok.
      * unfold py_setitem in E1.
        destruct (py_index (length y) i) as [k|e2] eqn:E2; simpl in E1; [discriminate|].
        assert (Hout : ~ in_range (length y) i).
        { intros Hi. rewrite (py_index_in_range _ _ Hi) in E2. discriminate. }
        rewrite (py_index_not_in_range _ _ Hout) in E2. injection E2 as <-.
        injection E1 as <-. split; [split|].
        -- intros [y' Hy']. discriminate.
        -- intros Hall. apply Forall_cons in Hall as [(i' & Hi' & Hr) _].
           exfalso. apply Hout. congruence.
        -- intros e [= <-]. now right.
    + split; [split|].
      * intros [y' Hy']. discriminate.
      * intros Hall. apply Forall_cons in Hall as [(i' & Hi' & _) _]. congruence.
      * intros e [= <-]. now left.
Qed.

(** A position no species of [keys] is written to keeps its entry. *)
Lemma populate_y0_untouched (inp : InputDict F) (C : F) (keys : list string) :
  forall y y', populate_y0 inp C keys y = Ok y' ->
  forall pos,
    (forall s i, In s keys -> species_dict2array inp !! s = Some i ->
                 wrapped (length y) i <> pos) ->
    y' !! pos = y !! pos.
Proof.
  induction keys as [|s keys IH]; intros y y'; simpl.
  - now intros [= <-].
  - destruct (dict_get _ s) as [c|]; simpl; [|discriminate].
    unfold gmap_get.
    destruct (species_dict2array inp !! s) as [i|] eqn:Ei; simpl; [|discriminate].
    destruct (py_setitem y i (fmul c C)) as [y1|] eqn:E1; simpl; [|discriminate].
    intros Hrest pos Hpos.
    pose proof (py_setitem_length _ _ _ _ E1) as Hlen.
    apply py_setitem_ok in E1 as [_ ->].
    rewrite (IH _ _ Hrest pos).
    + apply list_lookup_insert_ne. apply (Hpos s i); [now left | exact Ei].
    + rewrite Hlen. intros s' i' Hin. apply Hpos. now right.
Qed.
End Populate.

(** X9.  The initial state vector is built without error exactly when
    every species named in [species_initial_conc] is a key of
    [species_dict2array] with a position in
    [-len(species_dict), len(species_dict)); it then has
    [len(species_dict)] entries.  Otherwise setup raises [KeyError] (a
    named species the mapping does not know) or [IndexError] (a position
    outside the vector), and nothing else. *)
Theorem initial_y0_outcome {F : Type} `{PyFloat F} (a : Args F) :
  ((exists y, initial_y0 a = Ok y) <->
   Forall (writable (input_dict a) (size (species_dict (input_dict a))))
     (dict_keys (species_initial_conc (input_dict a)))) /\
  (forall y, initial_y0 a = Ok y -> length y = size (species_dict (input_dict a))) /\
  (forall e, initial_y0 a = Raise e -> e = KeyError \/ e = IndexError).
Proof.
  unfold initial_y0.
  destruct (populate_y0_outcome (input_dict a) (float_lit 255 8)
              (dict_keys (species_initial_conc (input_dict a))) (fun s h => h)
              (repeat (float_lit 0 0) (size (species_dict (input_dict a)))))
    as [Hok Herr].
  rewrite repeat_length in Hok.
  split; [exact Hok|]. split; [|exact Herr].
  intros y Hy. apply populate_y0_length in Hy. now rewrite Hy, repeat_length.
Qed.

(** X10.  When several named species share a position, the last one in
    the order of [species_initial_conc] wins: the entry at the position of
    a named species holds its concentration times 2.55e10 provided no
    species named after it is mapped to the same position (positions
    counted from the end included). *)
Theorem last_write_wins {F : Type} `{PyFloat F} (a : Args F)
    (before after : list (string * F)) (specie : string) (c : F) (i : Z) (y : list F) :
  species_initial_conc (input_dict a) = before ++ (specie, c) :: after ->
  NoDup (dict_keys (species_initial_conc (input_dict a))) ->
  species_dict2array (input_dict a) !! specie = Some i ->
  (forall s' i', In s' (dict_keys after) ->
     species_dict2array (input_dict a) !! s' = Some i' ->
     wrapped (size (species_dict (input_dict a))) i' <>
     wrapped (size (species_dict (input_dict a))) i) ->
  initial_y0 a = Ok y ->
  y !! wrapped (size (species_dict (input_dict a))) i = Some (fmul c (float_lit 255 8)).
Proof.
  intros Hconc Hnd Hi Hlater. unfold initial_y0.
  set (n := size (species_dict (input_dict a))) in *.
  assert (Hkeys : dict_keys (species_initial_conc (input_dict a)) =
                  dict_keys before ++ specie :: dict_keys after).
  { rewrite Hconc. unfold dict_keys. now rewrite map_app. }
  assert (Hc : dict_get (species_initial_conc (input_dict a)) specie = Ok c).
  { apply dict_get_In; [exact Hnd|]. rewrite Hconc. apply in_or_app. right. now left. }
  rewrite Hkeys, populate_y0_app.
  destruct (populate_y0 (input_dict a) (float_lit 255 8) (dict_keys before)
              (repeat (float_lit 0 0) n)) as [y1|] eqn:E1; simpl; [|discriminate].
  pose proof (populate_y0_length _ _ _ _ _ E1) as Hlen1. rewrite repeat_length in Hlen1.
  rewrite Hc. simpl. unfold gmap_get. rewrite Hi. simpl.
  destruct (py_setitem y1 i (fmul c (float_lit 255 8))) as [y2|] eqn:E2; simpl;
    [|discriminate].
  pose proof (py_setitem_length _ _ _ _ E2) as Hlen2.
  apply py_setitem_ok in E2 as [Hr ->]. rewrite Hlen1 in *.
  intros Hy.
  rewrite (populate_y0_untouched _ _ _ _ _ Hy).
  - apply list_lookup_insert_eq.
    pose proof (py_index_in_range n i Hr) as E. apply py_index_bound in E. lia.
  - rewrite Hlen2. intros s' i' Hin Hi'. exact (Hlater s' i' Hin Hi').
Qed.

(** ** Degenerate horizons and steps *)

Lemma batch_loop_stop {F : Type} `{PyFloat F} (ext : Externals F)
    (fuel : nat) (st : Store F) :
  fltb (total_time st) (simulation_time (args st)) = false ->
  batch_loop ext fuel st = Some (Ok tt, st).
Proof. intros E. destruct fuel; simpl; now rewrite E. Qed.

Lemma setup_after_y0 {F : Type} `{PyFloat F} (a : Args F) (y : list F) :
  initial_y0 a = Ok y ->
  setup a =
  res_bind (fdiv (simulation_time a) (batch_step a)) (fun q =>
  res_bind (fint q) (fun number_steps_ =>
  res_bind (numpy_zeros number_steps_ (length y)) (fun y_matrix_ =>
  Ok {| args := a; Cfactor := float_lit 255 8;
        num_species := size (species_dict (input_dict a));
        y0 := y; t0 := float_lit 0 0; total_time := float_lit 0 0;
        t_array := []; time_step := 0%Z;
        number_steps := number_steps_; y_matrix := y_matrix_;
        y_output := None; trace := [] |}))).
Proof. unfold initial_y0, setup. intros ->. reflexivity. Qed.

(** X11.  A zero [batch_step] is caught by the division that sizes the
    matrix: once the state vector is built, setup raises
    [ZeroDivisionError] and no batch is started, in exact arithmetic and in
    binary64 (for 0.0 and -0.0) alike. *)
Theorem zero_batch_step_raises :
  (forall (ext : Externals Q) (a : Args Q) (y : list Q) (fuel : nat),
      initial_y0 a = Ok y -> (batch_step a == 0)%Q ->
      run_simulation ext fuel a = Some (SetupRaised ZeroDivisionError)) /\
  (forall (ext : Externals spec_float) (a : Args spec_float) (y : list spec_float)
          (fuel : nat) (s : bool),
      initial_y0 a = Ok y -> batch_step a = S754_zero s ->
      run_simulation ext fuel a = Some (SetupRaised ZeroDivisionError)).
Proof.
  split.
  - intros ext a y fuel Hy Hb. unfold run_simulation.
    rewrite (setup_after_y0 a y Hy). simpl. unfold Q_div.
    apply Qeq_eq_bool in Hb. now rewrite Hb.
  - intros ext a y fuel s Hy Hb. unfold run_simulation.
    rewrite (setup_after_y0 a y Hy). simpl. unfold b64_div. now rewrite Hb.
Qed.

Lemma binary_round_aux_shape (s : bool) (m e : Z) (l : location) :
  binary_round_aux prec64 emax64 s m e l = S754_zero s \/
  (exists m' e', binary_round_aux prec64 emax64 s m e l = S754_finite s m' e') \/
  binary_round_aux prec64 emax64 s m e l = S754_infinity s \/
  binary_round_aux prec64 emax64 s m e l = S754_nan.
Proof.
  unfold binary_round_aux.
  destruct (shr_fexp prec64 emax64 m e l) as [mrs' e'].
  destruct (shr_fexp prec64 emax64 _ e' loc_Exact) as [mrs'' e''].
  destruct (shr_m mrs'') as [|p|p].
  - now left.
  - destruct (Z.leb _ _); [right; left; eauto | right; right; now left].
  - now right; right; right.
Qed.

(** [int] of a negative finite number is not positive. *)
Lemma b64_int_negative (m : positive) (e : Z) :
  exists k, b64_int (S754_finite true m e) = Ok k /\ (k <= 0)%Z.
Proof.
  unfold b64_int. eexists. split; [reflexivity|].
  destruct e as [|p|p].
  - pose proof (Z.shiftl_nonneg (Z.pos m) 0). lia.
  - pose proof (Z.shiftl_nonneg (Z.pos m) (Z.pos p)). lia.
  - pose proof (Z.shiftr_nonneg (Z.pos m) (Z.pos p)). lia.
Qed.

(** The row count computed from a negative horizon and a positive batch
    step: an overflow, a [nan], or a number that is not positive. *)
Lemma b64_rows_of_negative (x y : spec_float) :
  SFltb x (S754_zero false) = true -> SFltb (S754_zero false) y = true ->
  b64_int (SFdiv prec64 emax64 x y) = Raise ValueError \/
  b64_int (SFdiv prec64 emax64 x y) = Raise OverflowError \/
  exists k, b64_int (SFdiv prec64 emax64 x y) = Ok k /\ (k <= 0)%Z.
Proof.
  intros Hx Hy.
  destruct y as [sy|sy| |sy my ey]; try discriminate; destruct sy; try discriminate;
    destruct x as [sx|sx| |sx mx ex]; try discriminate; destruct sx; try discriminate.
  - left. reflexivity.
  - right. right. exists 0%Z. split; [reflexivity | lia].
  - right. left. reflexivity.
  - unfold SFdiv.
    destruct (SFdiv_core_binary prec64 emax64 (Z.pos mx) ex (Z.pos my) ey) as [[mz ez] lz].
    change (xorb true false) with true.
    destruct (binary_round_aux_shape true mz ez lz) as [E|[(m' & e' & E)|[E|E]]];
      rewrite E.
    + right. right. exists 0%Z. split; [reflexivity | lia].
    + right. right. apply b64_int_negative.
    + right. left. reflexivity.
    + left. reflexivity.
Qed.

Lemma b64_rows_of_zero (x y : spec_float) :
  SFeqb x (S754_zero false) = true -> SFltb (S754_zero false) y = true ->
  b64_int (SFdiv prec64 emax64 x y) = Ok 0%Z.
Proof.
  intros Hx Hy.
  destruct y as [sy|sy| |sy my ey]; try discriminate; destruct sy; try discriminate;
    destruct x as [sx|sx| |sx mx ex]; try discriminate; try reflexivity;
    destruct sx; discriminate.
Qed.

Lemma b64_not_below (x : spec_float) :
  SFltb x (S754_zero false) = true \/ SFeqb x (S754_zero false) = true ->
  SFltb (S754_zero false) x = false.
Proof.
  destruct x as [sx|sx| |sx mx ex]; try reflexivity; destruct sx; try reflexivity;
    intros [E|E]; discriminate.
Qed.

(** X12.  In binary64, with the state vector built and a positive
    [batch_step] (finite or infinite), a horizon that is not positive
    never starts a batch.  With [simulation_time] zero (0.0 or -0.0) the
    matrix has no rows and the run ends normally at once, without a
    solver invocation or a recorded time.  With [simulation_time]
    negative, either setup raises [ValueError] (a negative number of rows,
    or a quotient that is not a number) or [OverflowError] (an infinite
    quotient), or the quotient truncates to zero and the run ends normally
    at once in the same way. *)
Theorem nonpositive_horizon (ext : Externals spec_float) (a : Args spec_float)
    (y : list spec_float) (fuel : nat) :
  initial_y0 a = Ok y ->
  fltb (float_lit 0 0) (batch_step a) = true ->
  let ends_at_once :=
    exists st0, setup a = Ok st0 /\
      run_simulation ext fuel a = Some (Stopped (Ok tt) st0) /\
      trace st0 = [] /\ y_matrix st0 = [] /\ t_array st0 = [] in
  (feqb (simulation_time a) (float_lit 0 0) = true -> ends_at_once) /\
  (fltb (simulation_time a) (float_lit 0 0) = true ->
   run_simulation ext fuel a = Some (SetupRaised ValueError) \/
   run_simulation ext fuel a = Some (SetupRaised OverflowError) \/
   ends_at_once).
Proof.
  intros Hy Hb ends_at_once.
  change (SFltb (S754_zero false) (batch_step a) = true) in Hb.
  assert (Hnz : b64_is_zero (batch_step a) = false).
  { destruct (batch_step a); try reflexivity. destruct s; discriminate. }
  pose proof (setup_after_y0 a y Hy) as Hsetup.
  change (fdiv (simulation_time a) (batch_step a))
    with (b64_div (simulation_time a) (batch_step a)) in Hsetup.
  unfold b64_div in Hsetup. rewrite Hnz in Hsetup. cbn [res_bind] in Hsetup.
  change (fint (SFdiv prec64 emax64 (simulation_time a) (batch_step a)))
    with (b64_int (SFdiv prec64 emax64 (simulation_time a) (batch_step a))) in Hsetup.
  assert (Hzero : b64_int (SFdiv prec64 emax64 (simulation_time a) (batch_step a)) = Ok 0%Z ->
                  SFltb (S754_zero false) (simulation_time a) = false -> ends_at_once).
  { intros E Htest. rewrite E in Hsetup. cbn in Hsetup.
    eexists. split; [exact Hsetup|].
    unfold run_simulation. rewrite Hsetup.
    split; [|now repeat split].
    rewrite (batch_loop_stop ext fuel); [reflexivity | exact Htest]. }
  split.
  - intros HT. change (SFeqb (simulation_time a) (S754_zero false) = true) in HT.
    apply Hzero; [now apply b64_rows_of_zero | apply b64_not_below; now right].
  - intros HT. change (SFltb (simulation_time a) (S754_zero false) = true) in HT.
    destruct (b64_rows_of_negative _ _ HT Hb) as [E|[E|(k & E & Hk)]].
    + left. unfold run_simulation. rewrite Hsetup, E. reflexivity.
    + right. left. unfold run_simulation. rewrite Hsetup, E. reflexivity.
    + destruct (Z.eq_dec k 0%Z) as [->|Hneq].
      * right. right. apply Hzero; [exact E | apply b64_not_below; now left].
      * left. unfold run_simulation. rewrite Hsetup, E. cbn [res_bind].
        unfold numpy_zeros. assert (Hlt : (k <? 0)%Z = true) by (apply Z.ltb_lt; lia).
        rewrite Hlt. reflexivity.
Qed.

(** X13.  In any float arithmetic, with a solver that succeeds, the number
    [n] of times the loop test holds decides how the run ends: if the
    matrix has at least [n] rows the run stops normally after [n] batches;
    if it has fewer, the run stops with [IndexError] at the write that
    follows the last row, after one solver invocation more than there are
    rows.  (The elapsed time is assumed to be 0.0 only before the first of
    these batches.) *)
Theorem loop_count_decides_outcome {F : Type} `{PyFloat F} (ext : Externals F)
    (a : Args F) (st0 : Store F) (n : nat) :
  setup a = Ok st0 ->
  zero_only_at_start (batch_step a) n ->
  solver_succeeds ext a (length (y0 st0)) ->
  loop_runs a n ->
  ((n <= length (y_matrix st0))%nat -> forall fuel, (n <= fuel)%nat ->
     exists st, run_simulation ext fuel a = Some (Stopped (Ok tt) st) /\
       length (trace st) = n /\ time_step st = Z.of_nat n /\
       length (t_array st) = n) /\
  ((length (y_matrix st0) < n)%nat ->
     forall fuel, (length (y_matrix st0) < fuel)%nat ->
     exists st, run_simulation ext fuel a = Some (Stopped (Raise IndexError) st) /\
       length (trace st) = S (length (y_matrix st0)) /\
       time_step st = Z.of_nat (length (y_matrix st0)) /\
       length (t_array st) = S (length (y_matrix st0))).
Proof.
  intros Hsetup Hzero Hsolver Hruns.
  destruct (run_counts ext a st0 n Hsetup Hzero Hsolver Hruns) as [Hfits Hover].
  split.
  - intros Hrows fuel Hfuel.
    destruct (Hfits Hrows fuel Hfuel) as (st & Hrun & _ & Htr & Hts & Harr).
    exists st. now repeat split.
  - intros Hrows fuel Hfuel.
    destruct (Hover Hrows fuel Hfuel) as (st & Hrun & _ & Htr & Hts & Harr).
    exists st. now repeat split.
Qed.

(** ** The further properties on concrete runs *)

Lemma run_250_100 :
  run_simulation (ab_ext rate_Q) 3 args_250_100 =
    Some (Stopped (Raise IndexError) st_250_100).
Proof. vm_compute. reflexivity. Qed.

Lemma run_failing :
  run_simulation (failing_ext rate_Q) 5 args_300_100 =
    Some (Stopped (Raise (SolverError "convergence failure")) st_failing).
Proof. vm_compute. reflexivity. Qed.

Lemma matrix_keeps_shape_witness :
  (0 <= time_step st_failing <= number_steps st_failing)%Z /\
  length (y_matrix st_failing) = Z.to_nat (number_steps st_failing) /\
  Forall (fun row => length row = size (species_dict (input_dict args_300_100)))
    (y_matrix st_failing) /\
  (forall j, (Z.to_nat (time_step st_failing) <= j < length (y_matrix st_failing))%nat ->
     y_matrix st_failing !! j =
       Some (repeat (float_lit 0 0) (size (species_dict (input_dict args_300_100))))).
Proof.
  apply (matrix_keeps_shape (failing_ext rate_Q) 5 args_300_100
           (Raise (SolverError "convergence failure")) st_failing).
  exact run_failing.
Defined.

Lemma recorded_times_are_running_sums_witness :
  t_array st_250_100 =
    map (elapsed (batch_step args_250_100)) (seq 1 (length (t_array st_250_100))) /\
  total_time st_250_100 =
    elapsed (batch_step args_250_100) (length (t_array st_250_100)) /\
  (Z.of_nat (length (t_array st_250_100)) = time_step st_250_100 \/
   Z.of_nat (length (t_array st_250_100)) = (time_step st_250_100 + 1)%Z /\
   is_Ok (Raise IndexError : res unit) = false).
Proof.
  apply (recorded_times_are_running_sums (ab_ext rate_Q) 3 args_250_100
           (Raise IndexError) st_250_100).
  exact run_250_100.
Defined.

Lemma every_batch_configured_alike_witness :
  Forall (fun log =>
    log_sim log =
      {| problem := {| prob_y0 := log_start log; prob_t0 := float_lit 0 0;
                       prob_name := filename args_300_100; prob_jac := true |};
         atol := repeat (float_lit 1 (-3))
                   (size (species_dict (input_dict args_300_100)));
         rtol := float_lit 1 (-6); inith := float_lit 1 (-6);
         maxh := float_lit 100 0; usejac := true;
         report_continuously := true; maxncf := 1000 |}) (trace st_300_100).
Proof.
  apply (every_batch_configured_alike (ab_ext rate_Q) 5 args_300_100 (Ok tt) st_300_100).
  exact run_300_100.
Defined.

Lemma run_stops_on_solver_or_record_error_witness :
  exists log, last (trace st_failing) = Some log /\
    Z.of_nat (length (trace st_failing)) = (time_step st_failing + 1)%Z /\
    ((log_result log = Raise (SolverError "convergence failure") /\
      Z.of_nat (length (t_array st_failing)) = time_step st_failing) \/
     ((exists ts ys, log_result log = Ok (ts, ys)) /\
      (SolverError "convergence failure" = IndexError \/
       SolverError "convergence failure" = ValueError) /\
      Z.of_nat (length (t_array st_failing)) = (time_step st_failing + 1)%Z)).
Proof.
  apply (run_stops_on_solver_or_record_error (failing_ext rate_Q) 5 args_300_100
           (SolverError "convergence failure") st_failing).
  - reflexivity.
  - exact run_failing.
Defined.

Lemma no_rows_no_batch_witness :
  exists e st, run_simulation (ab_ext rate_Q) 1 args_50_100 = Some (Stopped (Raise e) st) /\
               length (trace st) = 1%nat /\ y_matrix st = [].
Proof.
  apply (no_rows_no_batch (ab_ext rate_Q) 1 args_50_100 st0_50_100).
  - reflexivity.
  - vm_compute. reflexivity.
  - vm_compute. reflexivity.
  - reflexivity.
  - apply le_n.
Defined.

Lemma completed_run_recorded_every_batch_witness :
  Forall (fun log => is_Some (log_last log)) (trace st_300_100) /\
  time_step st_300_100 = Z.of_nat (length (trace st_300_100)) /\
  length (t_array st_300_100) = length (trace st_300_100) /\
  (length (trace st_300_100) <= length (y_matrix st_300_100))%nat /\
  total_time st_300_100 =
    elapsed (batch_step args_300_100) (length (trace st_300_100)) /\
  fltb (total_time st_300_100) (simulation_time args_300_100) = false.
Proof.
  apply (completed_run_recorded_every_batch (ab_ext rate_Q) 5 args_300_100 st_300_100).
  exact run_300_100.
Defined.

Lemma peroxy_indices_wrap_witness :
  jacobian (ab_ext rate_Q) (float_lit 10 0) [float_lit 2 0; float_lit 3 0]
    (store_Q [(-1)%Z]) =
  (Ok (jacobian_fortran (ab_ext rate_Q)
         (evaluate_rates_fortran (ab_ext rate_Q)
            (numpy_sum [float_lit 3 0])
            (H2O (args (store_Q [(-1)%Z]))) (temp (args (store_Q [(-1)%Z])))
            (fadd (start_time (args (store_Q [(-1)%Z]))) (float_lit 10 0)))
         [float_lit 2 0; float_lit 3 0]), store_Q [(-1)%Z]) /\
  dydt_func (ab_ext rate_Q) (float_lit 10 0) [float_lit 2 0; float_lit 3 0]
    (store_Q [(-1)%Z]) =
  (Ok (loss_gain_fortran (ab_ext rate_Q)
         (zip_mul (reactants_fortran (ab_ext rate_Q) [float_lit 2 0; float_lit 3 0])
            (evaluate_rates_fortran (ab_ext rate_Q)
               (numpy_sum [float_lit 3 0])
               (H2O (args (store_Q [(-1)%Z]))) (temp (args (store_Q [(-1)%Z])))
               (fadd (start_time (args (store_Q [(-1)%Z]))) (float_lit 10 0))))),
   store_Q [(-1)%Z]).
Proof.
  destruct (proj1 (peroxy_indices_wrap (ab_ext rate_Q) (store_Q [(-1)%Z]) (float_lit 10 0)
                     [float_lit 2 0; float_lit 3 0])) as (Hj & _ & Hd).
  - repeat constructor; simpl; lia.
  - split; [exact Hj|]. apply Hd. reflexivity.
Defined.

Lemma last_write_wins_witness :
  exists y, initial_y0 clash_args = Ok y /\
            y !! 0%nat = Some (fmul (float_lit 2 0) (float_lit 255 8)).
Proof.
  eexists. split; [vm_compute; reflexivity|].
  refine (last_write_wins clash_args [("A"%string, float_lit 1 0)] []
            "B"%string (float_lit 2 0) (-2)%Z _ _ _ _ _ _).
  - reflexivity.
  - apply NoDup_cons. split; [|apply NoDup_singleton].
    intros Hin. apply list_elem_of_singleton in Hin. discriminate.
  - vm_compute. reflexivity.
  - intros s' i' [].
  - vm_compute. reflexivity.
Defined.

Lemma zero_batch_step_raises_witness :
  run_simulation (ab_ext rate_Q) 5 args_300_0 = Some (SetupRaised ZeroDivisionError).
Proof.
  eapply (proj1 zero_batch_step_raises (ab_ext rate_Q) args_300_0 _ 5).
  - vm_compute. reflexivity.
  - reflexivity.
Defined.

Lemma nonpositive_horizon_witness :
  exists st0, setup args_0_100 = Ok st0 /\
    run_simulation (ab_ext rate_b64) 5 args_0_100 = Some (Stopped (Ok tt) st0) /\
    trace st0 = [] /\ y_matrix st0 = [] /\ t_array st0 = [].
Proof.
  refine (proj1 (nonpositive_horizon (ab_ext rate_b64) args_0_100
                   [fmul (float_lit 1 0) (float_lit 255 8); float_lit 0 0] 5 _ _) _).
  - vm_compute. reflexivity.
  - vm_compute. reflexivity.
  - vm_compute. reflexivity.
Defined.

Lemma loop_count_decides_outcome_witness :
  exists st,
    run_simulation (ab_ext rate_b64) 9 args_08_01 = Some (Stopped (Raise IndexError) st) /\
    length (trace st) = 9%nat /\ time_step st = 8%Z /\ length (t_array st) = 9%nat.
Proof.
  refine (proj2 (loop_count_decides_outcome (ab_ext rate_b64) args_08_01 st0_08_01 9
                   _ _ _ _) _ 9%nat _).
  - vm_compute. reflexivity.
  - apply zero_only_at_start_b_sound. vm_compute. reflexivity.
  - apply euler_succeeds. constructor.
  - apply loop_runs_b_sound. vm_compute. reflexivity.
  - vm_compute. lia.
  - vm_compute. lia.
Defined.
